(** * Movie catalogue pipeline: provider client, catalogue store, classifier

    A shallow embedding of
      - [api_handlers/omdb_handler.py]   (module [OMDb]),
      - [database/movie_database.py]     (module [Database]),
      - [classifier/movie_classifier.py] (module [Classifier]),
    followed by the properties established for them.

    Python [str] values are Rocq strings holding the UTF-8 encoding of the
    text.  Substring search, [replace] and [split] on the encoded bytes agree
    with the same operations on code points, because the encoding of a code
    point never occurs inside or across the encodings of other code points.
    Python [float] values are the kernel's binary64 floats. *)

From Stdlib Require Import ZArith String Ascii List Floats Uint63.
From stdpp Require Import base gmap list strings sorting.

Set Warnings "-inexact-float".
Local Open Scope string_scope.

(** ** Python string built-ins used by the sources *)
Module PyStr.

(** Truth value of a [str]: the empty string is false. *)
Definition truthy (s : string) : bool :=
  match s with
  | EmptyString => false
  | String _ _ => true
  end.

(** Truth value of the result of [d.get(k)], with [None] for a missing key. *)
Definition truthy_opt (o : option string) : bool :=
  match o with
  | Some s => truthy s
  | None => false
  end.

Definition of_rev (cur : list ascii) : string :=
  string_of_list_ascii (rev cur).

(** [s.split(sep)] scanning left to right; [skip] counts the characters of
    a separator occurrence that are still to be consumed and [cur] holds the
    current piece, reversed. *)
Fixpoint split_from (sep : string) (skip : nat) (cur : list ascii)
    (s : string) : list string :=
  match s with
  | EmptyString => [of_rev cur]
  | String c s' =>
      match skip with
      | S k => split_from sep k cur s'
      | O =>
          if String.prefix sep s
          then of_rev cur :: split_from sep (String.length sep - 1) [] s'
          else split_from sep 0 (c :: cur) s'
      end
  end.

(** [s.split(sep)] for a non-empty [sep] (Python raises [ValueError] on an
    empty separator; every call in the sources passes a literal). *)
Definition split (sep s : string) : list string := split_from sep 0 [] s.

(** [s.replace(old, new)] for a non-empty [old], left to right, occurrences
    not overlapping. *)
Fixpoint replace_from (old new : string) (skip : nat) (s : string) : string :=
  match s with
  | EmptyString => EmptyString
  | String c s' =>
      match skip with
      | S k => replace_from old new k s'
      | O =>
          if String.prefix old s
          then new ++ replace_from old new (String.length old - 1) s'
          else String c (replace_from old new 0 s')
      end
  end.

(** With an empty [old], Python inserts [new] before every character and at
    the end. *)
Fixpoint intersperse_all (new s : string) : string :=
  match s with
  | EmptyString => new
  | String c s' => new ++ String c (intersperse_all new s')
  end.

Definition replace (old new s : string) : string :=
  match old with
  | EmptyString => intersperse_all new s
  | String _ _ => replace_from old new 0 s
  end.

(** [sep.join(l)]. *)
Definition join (sep : string) (l : list string) : string :=
  String.concat sep l.

(** U+2013 EN DASH, three bytes in UTF-8. *)
Definition en_dash : string :=
  String "226" (String "128" (String "147" EmptyString)).

End PyStr.

(** ** api_handlers/omdb_handler.py *)
Module OMDb.
Import PyStr.

(** The provider's answer is a flat JSON object of string fields. *)
Abbreviation dict := (gmap string string).

(** What the [try] block of [search_movie] can produce: [requests.get] or
    [raise_for_status] raising a [RequestException] (connection error,
    timeout, HTTP error status), any other exception (for instance the body
    is not JSON), or the decoded object. *)
Inductive response :=
| RequestException
| OtherException
| Json (data : dict).

Record MovieRecord := {
  omdb : option dict;
  title : string;
  genres : list string;
  year : string;
  overview : string;
  rating : option string;
  votes : string;
  director : string;
  actors : string;
  runtime : string;
  box_office : string;
  poster : string;
  metascore : string;
  imdb_id : string;
  omdb_link : string;
  source : string
}.

(** [search_movie], as a function of the outcome of the request.  Both
    [except] clauses only show a warning and fall through to
    [return None]. *)
Definition search_movie (r : response) : option dict :=
  match r with
  | Json data =>
      if bool_decide (data !! "Response" = Some "True")
      then Some data
      else None
  | RequestException => None
  | OtherException => None
  end.

(** Truth value of a [dict]: the empty one is false. *)
Definition dict_truthy (d : dict) : bool := negb (bool_decide (d = ∅)).

(** The assignments of lines 45-60. *)
Definition found_record (omdb_data : dict) (movie_title : string) : MovieRecord :=
  {| omdb := Some omdb_data;
     title := default movie_title (omdb_data !! "Title");
     genres :=
       if truthy_opt (omdb_data !! "Genre")
       then split ", " (default "" (omdb_data !! "Genre"))
       else [];
     year :=
       hd "" (split en_dash
                (replace en_dash "" (default "Unknown" (omdb_data !! "Year"))));
     overview := default "" (omdb_data !! "Plot");
     rating := omdb_data !! "imdbRating";
     votes := replace "," "" (default "0" (omdb_data !! "imdbVotes"));
     director := default "Unknown" (omdb_data !! "Director");
     actors := default "Unknown" (omdb_data !! "Actors");
     runtime := default "Unknown" (omdb_data !! "Runtime");
     box_office := default "Unknown" (omdb_data !! "BoxOffice");
     poster := default "" (omdb_data !! "Poster");
     metascore := default "N/A" (omdb_data !! "Metascore");
     imdb_id := default "" (omdb_data !! "imdbID");
     omdb_link :=
       if truthy_opt (omdb_data !! "imdbID")
       then "https://www.imdb.com/title/" ++ default "" (omdb_data !! "imdbID")
       else "";
     source := "OMDb" |}.

(** The literal of lines 64-80. *)
Definition minimal_record (movie_title : string) : MovieRecord :=
  {| omdb := None;
     title := movie_title;
     genres := ["Unknown"];
     year := "Unknown";
     overview := "No information available";
     rating := None;
     votes := "0";
     director := "Unknown";
     actors := "Unknown";
     runtime := "Unknown";
     box_office := "Unknown";
     poster := "";
     metascore := "N/A";
     imdb_id := "";
     omdb_link := "";
     source := "Not Found" |}.

(** [get_movie_data]: [movie_data] starts as the empty dict ([None] here)
    and is filled when [search_movie] returned a non-empty object. *)
Definition get_movie_data (r : response) (movie_title : string) : MovieRecord :=
  let movie_data : option MovieRecord :=
    match search_movie r with
    | Some omdb_data =>
        if dict_truthy omdb_data
        then Some (found_record omdb_data movie_title)
        else None
    | None => None
    end in
  match movie_data with
  | Some m => m
  | None => minimal_record movie_title
  end.

End OMDb.


(** ** Python built-ins whose definition lies outside the repository *)

(** [py_float s] is [float(s)], with [None] when it raises [ValueError];
    [py_sum] is [sum] over a list of floats, [py_round2 x] is [round(x, 2)]
    and [py_strip s] is [s.strip()]. *)
Class Builtins := {
  py_float : string → option float;
  py_sum : list float → float;
  py_round2 : float → float;
  py_strip : string → string
}.

(** ** database/movie_database.py *)
Module Database.
Import PyStr OMDb.

(** One row per table of [init_database].  A [REAL] column holds [None] for
    SQL [NULL]; timestamps are seconds. *)
Record movie_row := {
  m_id : Z;
  m_title : string;
  m_year : string;
  m_genres : string;
  m_rating : option float;
  m_director : string;
  m_actors : string;
  m_runtime : string;
  m_overview : string;
  m_poster_url : string;
  m_imdb_id : string;
  m_date_added : Z
}.

Record watchlist_row := {
  w_id : Z;
  w_name : string;
  w_description : string;
  w_created_date : Z
}.

Record watchlist_item := {
  wi_id : Z;
  wi_watchlist_id : Z;
  wi_movie_id : Z;
  wi_added_date : Z
}.

(** The database file: the three tables in rowid order and, for each
    [AUTOINCREMENT] key, the largest rowid handed out so far
    ([sqlite_sequence]). *)
Record db := {
  movies : list movie_row;
  movies_seq : Z;
  watchlists : list watchlist_row;
  watchlists_seq : Z;
  watchlist_items : list watchlist_item;
  watchlist_items_seq : Z
}.

Definition empty_db : db :=
  {| movies := []; movies_seq := 0%Z;
     watchlists := []; watchlists_seq := 0%Z;
     watchlist_items := []; watchlist_items_seq := 0%Z |}.

(** [init_database]: [CREATE TABLE IF NOT EXISTS] leaves an existing file
    as it is and gives a new one three empty tables. *)
Definition init_database (file : option db) : db := default empty_db file.

(** The rowid given to a new row of an [AUTOINCREMENT] table. *)
Definition next_rowid (seq : Z) (ids : list Z) : Z :=
  (Z.max seq (foldr Z.max 0 ids) + 1)%Z.

(** A Python float bound to a [REAL] column, as a later [SELECT] reads it
    back: SQLite stores a NaN as [NULL], and keeps a value that is a whole
    number as an integer, which loses the sign of [-0.0]; every other value
    comes back bit for bit. *)
Definition sql_real (f : float) : option float :=
  if PrimFloat.is_nan f then None
  else if PrimFloat.eqb f 0 then Some 0%float
  else Some f.

(** The fourth bound parameter of [add_movie] (line 74); [None] when
    [float] raises. *)
Definition rating_param `{Builtins} (movie_data : MovieRecord) : option float :=
  match rating movie_data with
  | Some r =>
      if truthy r && negb (bool_decide (r = "N/A"))
      then py_float r
      else Some 0%float
  | None => Some 0%float
  end.

(** Rows that violate [UNIQUE(title, year)] against a new row. *)
Definition same_key (t y : string) (r : movie_row) : Prop :=
  m_title r = t ∧ m_year r = y.

#[global] Instance same_key_dec t y r : Decision (same_key t y r).
Proof. unfold same_key. apply _. Defined.

(** [add_movie]: [INSERT OR REPLACE] deletes the rows in conflict on
    [UNIQUE(title, year)] and inserts the new row under a new rowid, which
    [cursor.lastrowid] returns.  An exception while the parameters are built
    is caught: nothing is written and [None] is returned. *)
Definition new_row (movie_id now : Z) (r : float) (movie_data : MovieRecord)
    : movie_row :=
  {| m_id := movie_id;
     m_title := title movie_data;
     m_year := year movie_data;
     m_genres := join ", " (genres movie_data);
     m_rating := sql_real r;
     m_director := director movie_data;
     m_actors := actors movie_data;
     m_runtime := runtime movie_data;
     m_overview := overview movie_data;
     m_poster_url := poster movie_data;
     m_imdb_id := imdb_id movie_data;
     m_date_added := now |}.

Definition add_movie `{Builtins} (now : Z) (d : db) (movie_data : MovieRecord)
    : db * option Z :=
  match rating_param movie_data with
  | None => (d, None)
  | Some r =>
      let movie_id := next_rowid (movies_seq d) (m_id <$> movies d) in
      let kept :=
        filter (λ r, ¬ same_key (title movie_data) (year movie_data) r)
               (movies d) in
      ({| movies := (kept ++ [new_row movie_id now r movie_data])%list;
          movies_seq := movie_id;
          watchlists := watchlists d;
          watchlists_seq := watchlists_seq d;
          watchlist_items := watchlist_items d;
          watchlist_items_seq := watchlist_items_seq d |},
       Some movie_id)
  end.

(** Rows that violate [UNIQUE(watchlist_id, movie_id)] against a new item. *)
Definition same_pair (watchlist_id movie_id : Z) (it : watchlist_item) : Prop :=
  wi_watchlist_id it = watchlist_id ∧ wi_movie_id it = movie_id.

#[global] Instance same_pair_dec w m it : Decision (same_pair w m it).
Proof. unfold same_pair. apply _. Defined.

(** [add_to_watchlist]: a plain [INSERT]; the uniqueness violation raises
    [sqlite3.IntegrityError], which is caught, nothing is committed and
    [False] is returned.  Foreign keys are not enforced (the connection
    never turns the pragma on). *)
Definition add_to_watchlist (now : Z) (d : db) (watchlist_id movie_id : Z)
    : db * bool :=
  if bool_decide (Exists (same_pair watchlist_id movie_id) (watchlist_items d))
  then (d, false)
  else
    let item_id :=
      next_rowid (watchlist_items_seq d) (wi_id <$> watchlist_items d) in
    ({| movies := movies d;
        movies_seq := movies_seq d;
        watchlists := watchlists d;
        watchlists_seq := watchlists_seq d;
        watchlist_items :=
          (watchlist_items d ++
           [{| wi_id := item_id;
               wi_watchlist_id := watchlist_id;
               wi_movie_id := movie_id;
               wi_added_date := now |}])%list;
        watchlist_items_seq := item_id |},
     true).

(** How many membership rows relate a watchlist to a movie. *)
Definition membership_count (d : db) (watchlist_id movie_id : Z) : nat :=
  length (filter (same_pair watchlist_id movie_id) (watchlist_items d)).

(** The rows stored for a [(title, year)] pair. *)
Definition rows_for (d : db) (t y : string) : list movie_row :=
  filter (same_key t y) (movies d).

(** The columns under each [UNIQUE] constraint. *)
Definition key_of (r : movie_row) : string * string := (m_title r, m_year r).

Definition pair_of (it : watchlist_item) : Z * Z :=
  (wi_watchlist_id it, wi_movie_id it).

(** What the schema guarantees of a database file: rowids are distinct
    and not above the recorded sequence, and the two [UNIQUE] constraints
    hold. *)
Record db_ok (d : db) : Prop := {
  movies_ids_bound : Forall (λ r, (0 < m_id r ≤ movies_seq d)%Z) (movies d);
  movies_ids_nodup : NoDup (m_id <$> movies d);
  movies_unique : NoDup (key_of <$> movies d);
  items_ids_bound :
    Forall (λ it, (0 < wi_id it ≤ watchlist_items_seq d)%Z) (watchlist_items d);
  items_ids_nodup : NoDup (wi_id <$> watchlist_items d);
  items_unique : NoDup (pair_of <$> watchlist_items d)
}.

End Database.

(** ** The world outside the process *)

(** [requests_get n t] is the outcome of the request issued for title [t]
    when [n] requests have been issued before it (the provider may answer the
    same title differently over time); [current_timestamp n] is SQLite's
    [CURRENT_TIMESTAMP] once [n] requests have been issued. *)
Class World := {
  requests_get : nat → string → OMDb.response;
  current_timestamp : nat → Z
}.

(** ** classifier/movie_classifier.py *)
Module Classifier.
Import PyStr OMDb Database.

Definition default_genres : list string :=
  [ "Action"; "Adventure"; "Animation"; "Comedy"; "Crime";
    "Documentary"; "Drama"; "Family"; "Fantasy"; "History";
    "Horror"; "Music"; "Mystery"; "Romance"; "Science Fiction";
    "Thriller"; "War"; "Western"; "Unknown" ].

(** What an observer of a run can see, in the order it happens. *)
Inductive event :=
| Progress (current total : nat)
| Lookup (movie_title : string)
| AddMovie (movie_data : MovieRecord)
| Sleep.

(** The classifier object and the world it acts on: its store, the records
    of the last batch, the number of requests issued and the events so far
    (oldest first). *)
Record state := {
  database : db;
  processed_movies : list MovieRecord;
  requests : nat;
  trace : list event
}.

Definition log (e : event) (st : state) : state :=
  {| database := database st;
     processed_movies := processed_movies st;
     requests := requests st;
     trace := (trace st ++ [e])%list |}.

(** [get_movie_data]: one request through the handler. *)
Definition get_movie_data `{World} (st : state) (movie_title : string)
    : MovieRecord * state :=
  (OMDb.get_movie_data (requests_get (requests st) movie_title) movie_title,
   {| database := database st;
      processed_movies := processed_movies st;
      requests := S (requests st);
      trace := (trace st ++ [Lookup movie_title])%list |}).

Definition found (movie_data : MovieRecord) : bool :=
  negb (bool_decide (source movie_data = "Not Found")).

(** Lines 31-32 and 51-52: the record goes to the store only when its
    source is not ['Not Found']. *)
Definition store_if_found `{Builtins} `{World} (st : state)
    (movie_data : MovieRecord) : state :=
  if found movie_data
  then
    {| database :=
         (add_movie (current_timestamp (requests st)) (database st) movie_data).1;
       processed_movies := processed_movies st;
       requests := requests st;
       trace := (trace st ++ [AddMovie movie_data])%list |}
  else st.

Definition search_single_movie `{Builtins} `{World} (st : state)
    (movie_title : string) : MovieRecord * state :=
  let '(movie_data, st) := get_movie_data st movie_title in
  (movie_data, store_if_found st movie_data).

Abbreviation buckets := (gmap string (list MovieRecord)).

(** [classified_movies[genre].append(movie_data)].  Every key used is a key
    of the dict (see [classify_loop_dom]), so the [KeyError] of a missing
    key is never raised. *)
Definition append_to (genre : string) (movie_data : MovieRecord)
    (classified_movies : buckets) : buckets :=
  alter (λ l, (l ++ [movie_data])%list) genre classified_movies.

(** Lines 55-63. *)
Definition file_record (classified_movies : buckets) (movie_data : MovieRecord)
    : buckets :=
  let genres := genres movie_data in
  if bool_decide (genres = []) || bool_decide (genres = ["Unknown"])
  then append_to "Unknown" movie_data classified_movies
  else
    fold_left
      (λ cm genre,
         if bool_decide (is_Some (cm !! genre))
         then append_to genre movie_data cm
         else append_to "Unknown" movie_data cm)
      genres classified_movies.

Definition record_processed (movie_data : MovieRecord) (st : state) : state :=
  {| database := database st;
     processed_movies := (processed_movies st ++ [movie_data])%list;
     requests := requests st;
     trace := trace st |}.

(** The [for] loop of [classify_movies], from index [i] on.
    [progress_callback] tells whether a callback was passed; calling it is
    the event [Progress]. *)
Fixpoint classify_loop `{Builtins} `{World} (progress_callback : bool)
    (total_movies i : nat) (movie_titles : list string)
    (classified_movies : buckets) (st : state) : buckets * state :=
  match movie_titles with
  | [] => (classified_movies, st)
  | title :: rest =>
      let st :=
        if progress_callback then log (Progress (i + 1) total_movies) st else st in
      let '(movie_data, st) := get_movie_data st (py_strip title) in
      let st := record_processed movie_data st in
      let st := store_if_found st movie_data in
      let classified_movies := file_record classified_movies movie_data in
      let st := log Sleep st in
      classify_loop progress_callback total_movies (S i) rest classified_movies st
  end.

Definition empty_buckets : buckets :=
  list_to_map ((λ genre, (genre, [])) <$> default_genres).

Definition classify_movies `{Builtins} `{World} (movie_titles : list string)
    (progress_callback : bool) (st : state) : buckets * state :=
  classify_loop progress_callback (length movie_titles) 0 movie_titles
    empty_buckets
    {| database := database st;
       processed_movies := [];
       requests := requests st;
       trace := trace st |}.

(** *** [get_statistics] *)

(** A call either returns or lets an exception escape. *)
Inductive outcome (A : Type) :=
| Raised
| Returned (a : A).
Arguments Raised {A}.
Arguments Returned {A} a.

Record statistics := {
  total_movies : nat;
  found_movies : nat;
  not_found_movies : nat;
  unknown_genres : nat;
  genre_counts : gmap string nat;
  success_rate : float;
  average_rating : float;
  rating_data : list float;
  rating_categories : gmap string nat;
  top_rated_movies : list MovieRecord;
  total_ratings : nat
}.

(** An [int] count as a [float]; exact below 2^53, where [a / b] on ints is
    the float quotient of the two conversions. *)
Definition float_of_nat (n : nat) : float :=
  PrimFloat.of_uint63 (Uint63.of_Z (Z.of_nat n)).

Definition unknown_genre (m : MovieRecord) : bool :=
  bool_decide (genres m = []) || bool_decide (genres m = ["Unknown"]).

(** Lines 85-89. *)
Definition count_genre (genre_counts : gmap string nat) (genre : string)
    : gmap string nat :=
  match genre_counts !! genre with
  | Some n => <[genre := n + 1]> genre_counts
  | None => <[genre := 1]> genre_counts
  end.

Definition initial_categories : gmap string nat :=
  <["Excellent (9-10)" := 0]>
    (<["Good (7-8.9)" := 0]>
       (<["Average (5-6.9)" := 0]>
          (<["Poor (3-4.9)" := 0]>
             (<["Bad (0-2.9)" := 0]> ∅)))).

(** The [if]/[elif] chain of lines 98-107: the key whose counter grows. *)
Definition category_key (rating : float) : string :=
  if PrimFloat.leb 9 rating then "Excellent (9-10)"
  else if PrimFloat.leb 7 rating then "Good (7-8.9)"
  else if PrimFloat.leb 5 rating then "Average (5-6.9)"
  else if PrimFloat.leb 3 rating then "Poor (3-4.9)"
  else "Bad (0-2.9)".

(** The guard of line 92 (and, reordered, of line 115). *)
Definition rated (movie : MovieRecord) : bool :=
  found movie && truthy_opt (rating movie)
  && negb (bool_decide (rating movie = Some "N/A")).

(** [float(movie.get('rating'))]; a missing rating would raise too. *)
Definition rating_float `{Builtins} (movie : MovieRecord) : option float :=
  match rating movie with
  | Some r => py_float r
  | None => None
  end.

(** Lines 92-109: a rating that does not parse is skipped ([except: pass]). *)
Definition rating_analysis `{Builtins}
    (acc : list float * gmap string nat) (movie : MovieRecord)
    : list float * gmap string nat :=
  if rated movie
  then
    match rating_float movie with
    | Some rating =>
        ((acc.1 ++ [rating])%list, alter S (category_key rating) acc.2)
    | None => acc
    end
  else acc.

(** [sorted(..., key=..., reverse=True)] on keys that are totally ordered:
    descending, records with equal keys in their original order.  A NaN key
    compares false with everything and the order Python leaves then depends
    on the runs its merge sort finds; this definition is the program's sort
    only when no key is a NaN, and what is proved of the ranking
    ([top_rated_movies]) carries that hypothesis. *)
Fixpoint insert_desc (k : float) (m : MovieRecord)
    (l : list (float * MovieRecord)) : list (float * MovieRecord) :=
  match l with
  | [] => [(k, m)]
  | (k', m') :: l' =>
      if PrimFloat.ltb k' k
      then (k, m) :: l
      else (k', m') :: insert_desc k m l'
  end.

Definition sorted_desc (l : list (float * MovieRecord)) : list MovieRecord :=
  snd <$> fold_left (λ acc km, insert_desc km.1 km.2 acc) l [].

(** The sort keys of line 116 are computed outside any [try]: one that
    fails makes [get_statistics] raise. *)
Definition sort_keys `{Builtins} (rated_movies : list MovieRecord)
    : option (list (float * MovieRecord)) :=
  mapM (λ m, (λ k, (k, m)) <$> rating_float m) rated_movies.

(** [get_statistics] over [self.processed_movies]; the empty dict is
    [None]. *)
Definition get_statistics `{Builtins} (processed_movies : list MovieRecord)
    : outcome (option statistics) :=
  match processed_movies with
  | [] => Returned None
  | _ :: _ =>
      let total_movies := length processed_movies in
      let found_movies := length (filter (λ m, found m = true) processed_movies) in
      let unknown_genres :=
        length (filter (λ m, unknown_genre m = true) processed_movies) in
      let genre_counts :=
        fold_left (λ gc movie, fold_left count_genre (genres movie) gc)
                  processed_movies ∅ in
      let '(rating_data, rating_categories) :=
        fold_left rating_analysis processed_movies ([], initial_categories) in
      let avg_rating :=
        match rating_data with
        | [] => 0%float
        | _ :: _ =>
            PrimFloat.div (py_sum rating_data) (float_of_nat (length rating_data))
        end in
      let rated_movies := filter (λ m, rated m = true) processed_movies in
      match sort_keys rated_movies with
      | None => Raised
      | Some keyed =>
          Returned (Some
            {| total_movies := total_movies;
               found_movies := found_movies;
               not_found_movies := total_movies - found_movies;
               unknown_genres := unknown_genres;
               genre_counts := genre_counts;
               success_rate :=
                 if bool_decide (0 < total_movies)
                 then PrimFloat.mul
                        (PrimFloat.div (float_of_nat found_movies)
                                       (float_of_nat total_movies))
                        100
                 else 0%float;
               average_rating :=
                 if PrimFloat.eqb avg_rating 0 then 0%float
                 else py_round2 avg_rating;
               rating_data := rating_data;
               rating_categories := rating_categories;
               top_rated_movies := take 5 (sorted_desc keyed);
               total_ratings := length rating_data |})
      end
  end.

End Classifier.

(** ** The loop of [classify_movies], component by component

    The records, store, and events a batch produces, each as a recursion of
    its own over the titles; [classify_loop_unfold] shows that the loop
    computes exactly these. *)
Module Views.
Import PyStr OMDb Database Classifier.

Section Batch.
Context `{Builtins} `{World}.

(** The record of the title looked up when [n] requests were issued
    before. *)
Definition record_at (n : nat) (title : string) : MovieRecord :=
  OMDb.get_movie_data (requests_get n (py_strip title)) (py_strip title).

Fixpoint batch_records (n : nat) (movie_titles : list string)
    : list MovieRecord :=
  match movie_titles with
  | [] => []
  | title :: rest => record_at n title :: batch_records (S n) rest
  end.

(** The store after one record, written once the request count is [n]. *)
Definition store_record (n : nat) (d : db) (movie_data : MovieRecord) : db :=
  if found movie_data
  then (add_movie (current_timestamp n) d movie_data).1
  else d.

Fixpoint batch_db (n : nat) (movie_titles : list string) (d : db) : db :=
  match movie_titles with
  | [] => d
  | title :: rest =>
      batch_db (S n) rest (store_record (S n) d (record_at n title))
  end.

(** The events of one iteration. *)
Definition title_events (progress_callback : bool) (total_movies i n : nat)
    (title : string) : list event :=
  ((if progress_callback then [Progress (i + 1) total_movies] else [])
   ++ [Lookup (py_strip title)]
   ++ (if found (record_at n title) then [AddMovie (record_at n title)] else [])
   ++ [Sleep])%list.

Fixpoint batch_events (progress_callback : bool) (total_movies i n : nat)
    (movie_titles : list string) : list event :=
  match movie_titles with
  | [] => []
  | title :: rest =>
      (title_events progress_callback total_movies i n title
       ++ batch_events progress_callback total_movies (S i) (S n) rest)%list
  end.
End Batch.

(** Events of a trace, by kind. *)
Definition is_lookup (e : event) : bool :=
  match e with Lookup _ => true | _ => false end.

Definition lookups (tr : list event) : nat :=
  length (filter (λ e, is_lookup e = true) tr).

Definition progress_of (tr : list event) : list (nat * nat) :=
  omap (λ e, match e with Progress c t => Some (c, t) | _ => None end) tr.

Definition added_of (tr : list event) : list MovieRecord :=
  omap (λ e, match e with AddMovie m => Some m | _ => None end) tr.

(** The ratings [get_statistics] counts: those of the rated records whose
    rating parses, in batch order. *)
Definition counted_ratings `{Builtins} (processed : list MovieRecord)
    : list float :=
  omap (λ m, if rated m then rating_float m else None) processed.

(** The five keys of the rating histogram. *)
Definition category_keys : list string :=
  [ "Excellent (9-10)"; "Good (7-8.9)"; "Average (5-6.9)";
    "Poor (3-4.9)"; "Bad (0-2.9)" ].

(** How many of the ratings fall under a key. *)
Definition ratings_under (key : string) (ratings : list float) : nat :=
  length (filter (λ r, category_key r = key) ratings).

(** A record is filed under a genre when that bucket holds it. *)
Definition filed (movie_data : MovieRecord) (genre : string)
    (classified_movies : buckets) : Prop :=
  ∃ l, classified_movies !! genre = Some l ∧ movie_data ∈ l.

(** What filing one record guarantees for it. *)
Definition filed_by_genre (m : MovieRecord) (cm : buckets) : Prop :=
  (∀ g, g ∈ genres m → g ∈ default_genres → filed m g cm) ∧
  (genres m = [] ∨ genres m = ["Unknown"] → filed m "Unknown" cm) ∧
  (∀ g, g ∈ genres m → g ∉ default_genres → filed m "Unknown" cm).

(** The [for genre in genres] loop of lines 59-63. *)
Abbreviation file_genres m :=
  (fold_left
     (λ (cm : buckets) (genre : string),
        if bool_decide (is_Some (cm !! genre))
        then append_to genre m cm
        else append_to "Unknown" m cm)).

(** The keys of the dict are the recognized genres. *)
Definition keys_ok (classified_movies : buckets) : Prop :=
  ∀ genre, is_Some (classified_movies !! genre) ↔ genre ∈ default_genres.

(** Buckets only ever grow at their end. *)
Definition grows (cm cm' : buckets) : Prop :=
  ∀ genre l, cm !! genre = Some l → ∃ l', cm' !! genre = Some (l ++ l')%list.

End Views.

(** ** An instance of the environment, to run the model on examples *)
Module Sample.
Import PyStr OMDb Database Classifier.

Definition digit (c : ascii) : option Z :=
  let n := Z.of_nat (nat_of_ascii c) in
  if bool_decide (48 ≤ n ≤ 57)%Z then Some (n - 48)%Z else None.

(** Value and number of digits of a string of decimal digits. *)
Fixpoint digits (acc : Z) (k : nat) (s : string) : option (Z * nat) :=
  match s with
  | EmptyString => Some (acc, k)
  | String c s' =>
      match digit c with
      | Some v => digits (10 * acc + v)%Z (S k) s'
      | None => None
      end
  end.

Definition float_of_Z (z : Z) : float := PrimFloat.of_uint63 (Uint63.of_Z z).

(** [float] on an unsigned decimal numeral [ddd] or [ddd.ddd]: the digits
    as an integer, divided by the power of ten.  Both are exact for
    numerals of at most fifteen digits, and one correctly rounded division
    is then what [float] returns. *)
Definition decimal_float (s : string) : option float :=
  match split "." s with
  | [whole] =>
      match digits 0 0 whole with
      | Some (v, S _) => Some (float_of_Z v)
      | _ => None
      end
  | [whole; frac] =>
      match digits 0 0 (whole ++ frac), digits 0 0 frac with
      | Some (v, S _), Some (_, k) =>
          Some (PrimFloat.div (float_of_Z v) (float_of_Z (10 ^ Z.of_nat k)))
      | _, _ => None
      end
  | _ => None
  end.

(** Stripping of blanks at both ends. *)
Fixpoint lstrip (s : string) : string :=
  match s with
  | String " " s' => lstrip s'
  | _ => s
  end.

Definition rev_string (s : string) : string :=
  string_of_list_ascii (rev (list_ascii_of_string s)).

Definition strip (s : string) : string :=
  rev_string (lstrip (rev_string (lstrip s))).

(** Left-to-right sum; [round] is left out (the identity). *)
Definition builtins : Builtins :=
  {| py_float := decimal_float;
     py_sum := λ l, fold_left PrimFloat.add l 0%float;
     py_round2 := λ x, x;
     py_strip := strip |}.

Definition matrix : dict :=
  <["Response" := "True"]>
    (<["Title" := "The Matrix"]>
       (<["Year" := "1999"]>
          (<["Genre" := "Action, Sci-Fi"]>
             (<["imdbRating" := "8.7"]>
                (<["imdbVotes" := "2,100,000"]>
                   (<["imdbID" := "tt0133093"]> ∅)))))).

Definition blade_runner : dict :=
  <["Response" := "True"]>
    (<["Title" := "Blade Runner"]>
       (<["Year" := "1982"]>
          (<["Genre" := "Sci-Fi, Film-Noir"]>
             (<["imdbRating" := "8.1"]> ∅)))).

(** A provider that knows two films. *)
Definition world : World :=
  {| requests_get := λ _ t,
       if bool_decide (t = "The Matrix") then Json matrix
       else if bool_decide (t = "Blade Runner") then Json blade_runner
       else Json (<["Response" := "False"]> ∅);
     current_timestamp := λ n, (1700000000 + Z.of_nat n)%Z |}.

Definition fresh : state :=
  {| database := empty_db; processed_movies := []; requests := 0; trace := [] |}.

(** A provider whose answer is a match with a rating that is not a
    number. *)
Definition malformed : dict :=
  <["Response" := "True"]>
    (<["Title" := "Untitled"]>
       (<["Year" := "2001"]>
          (<["imdbRating" := "abc"]> ∅))).

Definition malformed_world : World :=
  {| requests_get := λ _ _, Json malformed;
     current_timestamp := λ n, (1700000000 + Z.of_nat n)%Z |}.

End Sample.


(** ** database/movie_database.py, the other operations *)
Module Store.
Import PyStr OMDb Database.

(** Rows that violate [UNIQUE] on a watchlist name. *)
Definition same_name (name : string) (w : watchlist_row) : Prop :=
  w_name w = name.

#[global] Instance same_name_dec name w : Decision (same_name name w).
Proof. unfold same_name. apply _. Defined.

(** [create_watchlist]: a plain [INSERT]; a name already present raises
    [sqlite3.IntegrityError], which is caught: nothing is written and
    [False] is returned. *)
Definition create_watchlist (now : Z) (d : db) (name description : string)
    : db * bool :=
  if bool_decide (Exists (same_name name) (watchlists d))
  then (d, false)
  else
    let watchlist_id := next_rowid (watchlists_seq d) (w_id <$> watchlists d) in
    ({| movies := movies d;
        movies_seq := movies_seq d;
        watchlists :=
          (watchlists d ++
           [{| w_id := watchlist_id;
               w_name := name;
               w_description := description;
               w_created_date := now |}])%list;
        watchlists_seq := watchlist_id;
        watchlist_items := watchlist_items d;
        watchlist_items_seq := watchlist_items_seq d |},
     true).

(** [ORDER BY key DESC].  SQLite leaves the order of rows with equal keys
    open; the merge sort fixes one, and nothing proved below depends on
    which. *)
Definition not_older {A} (key : A → Z) : relation A :=
  λ a b, (key b ≤ key a)%Z.

#[global] Instance not_older_dec {A} (key : A → Z) a b :
  Decision (not_older key a b).
Proof. unfold not_older. apply _. Defined.

Definition newest_first {A} (key : A → Z) (l : list A) : list A :=
  merge_sort (not_older key) l.

(** [get_all_movies]. *)
Definition get_all_movies (d : db) : list movie_row :=
  newest_first m_date_added (movies d).

(** The membership rows of a watchlist. *)
Definition items_of (d : db) (watchlist_id : Z) : list watchlist_item :=
  filter (λ it, wi_watchlist_id it = watchlist_id) (watchlist_items d).

(** [get_watchlists]: each watchlist (grouped by its primary key) with
    [COUNT(wi.movie_id)] over the membership rows joined to it. *)
Definition get_watchlists (d : db) : list (watchlist_row * nat) :=
  (λ w, (w, length (items_of d (w_id w))))
    <$> newest_first w_created_date (watchlists d).

(** [get_watchlist_movies]: the inner join of the watchlist's membership
    rows with the movies of the same id. *)
Definition get_watchlist_movies (d : db) (watchlist_id : Z) : list movie_row :=
  newest_first wi_added_date (items_of d watchlist_id)
    ≫= λ it, filter (λ m, m_id m = wi_movie_id it) (movies d).

(** [delete_watchlist]: the two [DELETE]s, committed together. *)
Definition delete_watchlist (d : db) (watchlist_id : Z) : db * bool :=
  ({| movies := movies d;
      movies_seq := movies_seq d;
      watchlists := filter (λ w, w_id w ≠ watchlist_id) (watchlists d);
      watchlists_seq := watchlists_seq d;
      watchlist_items :=
        filter (λ it, wi_watchlist_id it ≠ watchlist_id) (watchlist_items d);
      watchlist_items_seq := watchlist_items_seq d |},
   true).

(** What the schema guarantees of the watchlists table. *)
Record watchlists_ok (d : db) : Prop := {
  watchlists_ids_bound :
    Forall (λ w, (0 < w_id w ≤ watchlists_seq d)%Z) (watchlists d);
  watchlists_ids_nodup : NoDup (w_id <$> watchlists d);
  watchlists_unique : NoDup (w_name <$> watchlists d)
}.

(** The calls that write to the store, each with the time it is made at. *)
Inductive write :=
| WAddMovie (movie_data : MovieRecord)
| WCreateWatchlist (name description : string)
| WAddToWatchlist (watchlist_id movie_id : Z)
| WDeleteWatchlist (watchlist_id : Z).

Definition apply_write `{Builtins} (d : db) (w : Z * write) : db :=
  match w.2 with
  | WAddMovie movie_data => (add_movie w.1 d movie_data).1
  | WCreateWatchlist name description =>
      (create_watchlist w.1 d name description).1
  | WAddToWatchlist watchlist_id movie_id =>
      (add_to_watchlist w.1 d watchlist_id movie_id).1
  | WDeleteWatchlist watchlist_id => (delete_watchlist d watchlist_id).1
  end.

Definition run_writes `{Builtins} (d : db) (ws : list (Z * write)) : db :=
  fold_left apply_write ws d.

End Store.

(** ** utils/helpers.py *)
Module Helpers.
Import PyStr.
Local Open Scope float_scope.

(** [get_rating_class], on what its callers pass: the [rating] of a
    record. *)
Definition get_rating_class `{Builtins} (rating : option string) : string :=
  if negb (truthy_opt rating) || bool_decide (rating = Some "N/A"%string)
  then ""%string
  else
    match rating ≫= py_float with
    | Some rating_val =>
        if 8 <=? rating_val then "rating-excellent"%string
        else if 7 <=? rating_val then "rating-good"%string
        else if 6 <=? rating_val then "rating-average"%string
        else if 5 <=? rating_val then "rating-poor"%string
        else "rating-bad"%string
    | None => ""%string
    end.

(** The [if]/[elif] chain of lines 12-21 on its own. *)
Definition class_of (v : float) : string :=
  if 8 <=? v then "rating-excellent"%string
  else if 7 <=? v then "rating-good"%string
  else if 6 <=? v then "rating-average"%string
  else if 5 <=? v then "rating-poor"%string
  else "rating-bad"%string.

(** The loop of [validate_movie_titles]. ([len] counts characters and the
    model bytes; both are at least 1 exactly on non-empty strings.) *)
Fixpoint validate_loop `{Builtins} (movie_titles valid_titles invalid_titles
    : list string) : list string * list string :=
  match movie_titles with
  | [] => (valid_titles, invalid_titles)
  | title :: rest =>
      let cleaned_title := py_strip title in
      if truthy cleaned_title && (1 <=? String.length cleaned_title)%nat
      then validate_loop rest (valid_titles ++ [cleaned_title])%list invalid_titles
      else validate_loop rest valid_titles (invalid_titles ++ [title])%list
  end.

Definition validate_movie_titles `{Builtins} (movie_titles : list string)
    : list string * list string :=
  validate_loop movie_titles [] [].

End Helpers.

(** ** The buckets of [classify_movies], bucket by bucket *)
Module Shares.
Import PyStr OMDb Classifier.

(** The bucket a genre name of a record's list goes to. *)
Definition target (genre : string) : string :=
  if bool_decide (genre ∈ default_genres) then genre else "Unknown".

(** The names a record is filed under, one per append of lines 57-63. *)
Definition filed_under (movie_data : MovieRecord) : list string :=
  if bool_decide (genres movie_data = []) ||
     bool_decide (genres movie_data = ["Unknown"])
  then ["Unknown"]
  else target <$> genres movie_data.

(** The copies of a record that go to one bucket. *)
Definition share (genre : string) (movie_data : MovieRecord) : list MovieRecord :=
  replicate (length (filter (λ g, g = genre) (filed_under movie_data))) movie_data.

(** How often a genre name occurs in the genre lists of a batch. *)
Definition occurrences (genre : string) (processed : list MovieRecord) : nat :=
  length (filter (λ g, g = genre) (processed ≫= genres)).

(** The entry of a counter dict for a name seen [n] times: none when it was
    never seen. *)
Definition count_entry (n : nat) : option nat :=
  match n with
  | O => None
  | S _ => Some n
  end.

(** The same order on the pairs of sort key and record that
    [sorted_desc] ranks. *)
Abbreviation key_not_below :=
  (λ p q : float * MovieRecord, PrimFloat.ltb p.1 q.1 = false).

(** [a] may stand before [b] in a list ranked by descending rating: the
    rating of [b] is at most that of [a]. *)
Definition not_rated_below `{Builtins} (a b : MovieRecord) : Prop :=
  ∀ ra rb,
    rating_float a = Some ra → rating_float b = Some rb →
    PrimFloat.leb rb ra = true.

End Shares.

(** * Properties *)

(** ** The provider client *)
Module OMDbProps.
Import PyStr OMDb.

Lemma search_movie_None (r : response) :
  search_movie r = None ↔
  r = RequestException ∨ r = OtherException ∨
  ∃ data, r = Json data ∧ data !! "Response" ≠ Some "True".
Proof.
  destruct r as [| |data]; simpl.
  - split; [by left | done].
  - split; [by right; left | done].
  - case_bool_decide as Hresp.
    + split; [done|]. intros [?|[?|(d & [= <-] & Hd)]]; done.
    + split; [|done]. intros _. right. right. by exists data.
Qed.

Lemma search_movie_Some (r : response) (data : dict) :
  search_movie r = Some data ↔ r = Json data ∧ data !! "Response" = Some "True".
Proof.
  destruct r as [| |d]; simpl.
  - split; [done | by intros [? _]].
  - split; [done | by intros [? _]].
  - case_bool_decide as Hresp.
    + split; [by intros [= ->] | by intros [[= ->] _]].
    + split; [done | intros [[= ->] ?]; done].
Qed.

(** An object that answers ["True"] is not the empty dict, so the test
    [if omdb_data:] of line 44 never fails on what [search_movie] returns. *)
Lemma search_movie_truthy (r : response) (data : dict) :
  search_movie r = Some data → dict_truthy data = true.
Proof.
  intros [-> Hresp]%search_movie_Some. unfold dict_truthy.
  case_bool_decide as He; [|done]. by rewrite He, lookup_empty in Hresp.
Qed.

Lemma get_movie_data_found (r : response) (data : dict) (movie_title : string) :
  search_movie r = Some data →
  get_movie_data r movie_title = found_record data movie_title.
Proof.
  intros Hs. unfold get_movie_data.
  by rewrite Hs, (search_movie_truthy r data Hs).
Qed.

(** The source tag tells the two outcomes apart. *)
Lemma get_movie_data_source (r : response) (movie_title : string) :
  source (get_movie_data r movie_title) = "Not Found" ↔ search_movie r = None.
Proof.
  destruct (search_movie r) as [data|] eqn:Hs.
  - rewrite (get_movie_data_found r data movie_title Hs). simpl. split; done.
  - unfold get_movie_data. rewrite Hs. simpl. split; done.
Qed.

(** C2. Whenever the lookup fails (the request or the status check raises,
    the body cannot be decoded) or the provider reports no match,
    [get_movie_data] returns the record tagged ['Not Found'] in which every
    field has its fixed placeholder value; only the title is the caller's. *)
Theorem failed_lookup_gives_placeholder (r : response) (movie_title : string) :
  r = RequestException ∨ r = OtherException ∨
  (∃ data, r = Json data ∧ data !! "Response" ≠ Some "True") →
  get_movie_data r movie_title =
  {| omdb := None;
     title := movie_title;
     genres := ["Unknown"];
     year := "Unknown";
     overview := "No information available";
     rating := None;
     votes := "0";
     director := "Unknown";
     actors := "Unknown";
     runtime := "Unknown";
     box_office := "Unknown";
     poster := "";
     metascore := "N/A";
     imdb_id := "";
     omdb_link := "";
     source := "Not Found" |}.
Proof.
  intros Hfail%search_movie_None. unfold get_movie_data. by rewrite Hfail.
Qed.

Lemma failed_lookup_gives_placeholder_witness :
  get_movie_data (Json (<["Response" := "False"]> ∅)) "Zzznonexistentmovie123" =
  {| omdb := None;
     title := "Zzznonexistentmovie123";
     genres := ["Unknown"];
     year := "Unknown";
     overview := "No information available";
     rating := None;
     votes := "0";
     director := "Unknown";
     actors := "Unknown";
     runtime := "Unknown";
     box_office := "Unknown";
     poster := "";
     metascore := "N/A";
     imdb_id := "";
     omdb_link := "";
     source := "Not Found" |}.
Proof.
  apply (failed_lookup_gives_placeholder
           (Json (<["Response" := "False"]> ∅)) "Zzznonexistentmovie123").
  right. right. exists (<["Response" := "False"]> ∅).
  split; [reflexivity | vm_compute; discriminate].
Defined.

(** [split] always returns at least one piece, so the [[0]] of line 48
    cannot raise [IndexError]. *)
Lemma split_from_nonempty (sep : string) (skip : nat) (cur : list ascii)
    (s : string) :
  split_from sep skip cur s ≠ [].
Proof.
  revert skip cur. induction s as [|c s IH]; intros skip cur;
    cbn [split_from]; [done|].
  destruct skip; [|apply IH].
  destruct (String.prefix sep (String c s)); [done|apply IH].
Qed.

(** The year of a found record, from the provider's [Year] field. *)
Lemma found_year (data : dict) (movie_title : string) :
  data !! "Response" = Some "True" →
  year (get_movie_data (Json data) movie_title) =
  hd "" (split en_dash (replace en_dash "" (default "Unknown" (data !! "Year")))).
Proof.
  intros Hresp.
  rewrite (get_movie_data_found (Json data) data); [done|].
  by apply search_movie_Some.
Qed.

Lemma found_year_plain (data : dict) (movie_title : string) :
  data !! "Response" = Some "True" →
  (data !! "Year" = Some "2010" →
   year (get_movie_data (Json data) movie_title) = "2010") ∧
  (data !! "Year" = None →
   year (get_movie_data (Json data) movie_title) = "Unknown").
Proof.
  intros Hresp. rewrite (found_year data movie_title Hresp).
  split; intros ->; reflexivity.
Qed.

(** C3. On the provider's range ["2010–2012"] the year of the record is
    ["20102012"], not the first component ["2010"]: line 48 deletes every
    en dash before it splits on the en dash, so the split finds nothing to
    cut.  A plain year and a missing year come out as the claim says. *)
Theorem year_range_is_not_reduced :
  year (get_movie_data
          (Json (<["Response" := "True"]> (<["Year" := "2010–2012"]> ∅)))
          "Some Series") = "20102012" ∧
  year (get_movie_data
          (Json (<["Response" := "True"]> (<["Year" := "2010"]> ∅)))
          "Some Film") = "2010" ∧
  year (get_movie_data (Json (<["Response" := "True"]> ∅)) "Some Film")
  = "Unknown".
Proof. repeat split; vm_compute; reflexivity. Qed.

End OMDbProps.

(** ** The catalogue store *)
Module DatabaseProps.
Import PyStr OMDb Database.

Lemma foldr_max_ge (ids : list Z) (i : Z) :
  i ∈ ids → (i ≤ foldr Z.max 0 ids)%Z.
Proof.
  induction ids as [|j ids IH]; simpl.
  - by intros ?%elem_of_nil.
  - intros [->|Hin]%elem_of_cons; [lia|]. specialize (IH Hin). lia.
Qed.

Lemma next_rowid_above_seq (seq : Z) (ids : list Z) :
  (seq < next_rowid seq ids)%Z.
Proof. unfold next_rowid. lia. Qed.

Lemma next_rowid_pos (seq : Z) (ids : list Z) :
  (0 < next_rowid seq ids)%Z.
Proof.
  unfold next_rowid. assert (0 ≤ foldr Z.max 0 ids)%Z; [|lia].
  induction ids as [|j ids IH]; simpl; lia.
Qed.

Lemma next_rowid_above_ids (seq : Z) (ids : list Z) :
  Forall (λ i, (i < next_rowid seq ids)%Z) ids.
Proof.
  apply Forall_forall. intros i Hin%foldr_max_ge. unfold next_rowid. lia.
Qed.

Lemma next_rowid_fresh (seq : Z) (ids : list Z) :
  next_rowid seq ids ∉ ids.
Proof.
  intros Hin%foldr_max_ge. unfold next_rowid in Hin. lia.
Qed.

(** Filtering on a key what was filtered on its negation leaves nothing. *)
Lemma filter_filter_not {A} (P : A → Prop) `{∀ x, Decision (P x)} (l : list A) :
  filter P (filter (λ x, ¬ P x) l) = [].
Proof.
  induction l as [|x l IH]; [done|].
  rewrite (filter_cons (λ x, ¬ P x)). destruct (decide (¬ P x)) as [Hn|Hn]; [|done].
  rewrite filter_cons. by destruct (decide (P x)).
Qed.

Lemma filter_none {A} (P : A → Prop) `{∀ x, Decision (P x)} (l : list A) :
  ¬ Exists P l → filter P l = [].
Proof.
  induction l as [|x l IH]; [done|]. intros Hno.
  rewrite filter_cons. destruct (decide (P x)) as [Hx|Hx].
  - exfalso. apply Hno. by left.
  - apply IH. intros Hl. apply Hno. by right.
Qed.

(** Deleting rows keeps a uniqueness constraint. *)
Lemma NoDup_fmap_filter {A K} (f : A → K) (P : A → Prop)
    `{∀ x, Decision (P x)} (l : list A) :
  NoDup (f <$> l) → NoDup (f <$> filter P l).
Proof.
  induction l as [|x l IH]; [done|]. simpl.
  intros [Hx Hnd]%NoDup_cons. rewrite filter_cons.
  destruct (decide (P x)); [|by apply IH].
  simpl. apply NoDup_cons. split; [|by apply IH].
  intros (y & Hy & [_ Hin]%list_elem_of_filter)%list_elem_of_fmap.
  apply Hx. rewrite Hy. by apply list_elem_of_fmap_2.
Qed.

(** Under a uniqueness constraint on [f], a key that occurs, occurs once. *)
Lemma filter_unique {A K} (f : A → K) (k : K) `{EqDecision K} (l : list A) :
  NoDup (f <$> l) → Exists (λ x, f x = k) l →
  length (filter (λ x, f x = k) l) = 1.
Proof.
  induction l as [|x l IH]; simpl.
  - by intros _ ?%Exists_nil.
  - intros [Hx Hnd]%NoDup_cons Hex. rewrite filter_cons.
    destruct (decide (f x = k)) as [Hk|Hk].
    + simpl. f_equal. rewrite filter_none; [done|].
      intros (y & Hy & Hfy)%Exists_exists. apply Hx.
      rewrite Hk, <- Hfy. by apply list_elem_of_fmap_2.
    + apply IH; [done|]. by apply Exists_cons in Hex as [?|?].
Qed.

Section Store.
Context `{Builtins}.

(** The fourth parameter of line 74, case by case: the float of a rating
    that is not empty and not ["N/A"], and 0 otherwise. *)
Lemma rating_param_Some (m : MovieRecord) (r : float) :
  (∃ s, rating m = Some s ∧ s ≠ "" ∧ s ≠ "N/A" ∧ py_float s = Some r) ∨
  ((rating m = None ∨ rating m = Some "" ∨ rating m = Some "N/A") ∧
   r = 0%float) ↔
  rating_param m = Some r.
Proof.
  unfold rating_param. destruct (rating m) as [[|c t]|]; simpl.
  - split; [|intros [= <-]; right; eauto].
    intros [(s & [= <-] & Hs & _)|[_ ->]]; done.
  - case_bool_decide as Hna; simpl.
    + rewrite Hna. split; [|intros [= <-]; right; eauto].
      intros [(s & [= <-] & _ & Hs & _)|[_ ->]]; done.
    + split.
      * intros [(s' & [= <-] & _ & _ & Hf)|[[Hr|[Hr|Hr]] _]];
          try done; congruence.
      * intros Hf. left. eexists. by repeat split.
  - split; [|intros [= <-]; right; eauto].
    intros [(s & Hs & _)|[_ ->]]; done.
Qed.

(** [float] raises, and [add_movie] catches it, on a rating that is not
    empty, not ["N/A"] and not a number. *)
Lemma rating_param_None (m : MovieRecord) :
  (∃ s, rating m = Some s ∧ s ≠ "" ∧ s ≠ "N/A" ∧ py_float s = None) ↔
  rating_param m = None.
Proof.
  unfold rating_param. destruct (rating m) as [[|c t]|]; simpl.
  - split; [|done]. by intros (s & [= <-] & Hs & _).
  - case_bool_decide as Hna; simpl.
    + rewrite Hna. split; [|done]. by intros (s' & [= <-] & _ & Hs & _).
    + split; [by intros (s' & [= <-] & _ & _ & Hf)|].
      intros Hf. eexists. by repeat split.
  - split; [|done]. by intros (s & Hs & _).
Qed.

Lemma add_movie_failure (now : Z) (d : db) (m : MovieRecord) :
  rating_param m = None → add_movie now d m = (d, None).
Proof. intros Hr. unfold add_movie. by rewrite Hr. Qed.

(** After a successful write the pair has one row, the one written. *)
Lemma add_movie_rows (now : Z) (d : db) (m : MovieRecord) (r : float) :
  rating_param m = Some r →
  ∃ movie_id,
    (add_movie now d m).2 = Some movie_id ∧
    movie_id = next_rowid (movies_seq d) (m_id <$> movies d) ∧
    rows_for (add_movie now d m).1 (title m) (year m)
    = [new_row movie_id now r m].
Proof.
  intros Hr. unfold add_movie. rewrite Hr. simpl.
  eexists. split; [done|]. split; [done|].
  unfold rows_for. simpl. rewrite filter_app, filter_filter_not. simpl.
  rewrite filter_cons. destruct (decide _) as [|Hn]; [done|].
  exfalso. apply Hn. by split.
Qed.

(** Rows of other pairs are not touched by a write. *)
Lemma add_movie_other_rows (now : Z) (d : db) (m : MovieRecord) (t y : string) :
  (t, y) ≠ (title m, year m) →
  rows_for (add_movie now d m).1 t y = rows_for d t y.
Proof.
  intros Hne. unfold add_movie.
  destruct (rating_param m) as [r|]; [|done]. unfold rows_for. simpl.
  rewrite filter_app, list_filter_filter. simpl.
  rewrite (filter_cons _ (new_row _ _ _ _)).
  destruct (decide _) as [[Ht Hy]|_].
  { exfalso. apply Hne. simpl in Ht, Hy. by rewrite Ht, Hy. }
  rewrite app_nil_r. apply list_filter_iff. intros row. unfold same_key.
  split; [by intros [? _]|]. intros [Ht Hy]. split; [done|].
  intros [Ht' Hy']. apply Hne. congruence.
Qed.

Lemma empty_db_ok : db_ok empty_db.
Proof. split; simpl; by constructor. Qed.

(** A write keeps the store within its schema. *)
Lemma add_movie_ok (now : Z) (d : db) (m : MovieRecord) :
  db_ok d → db_ok (add_movie now d m).1.
Proof.
  intros [Hb Hi Hu Hib Hii Hiu]. unfold add_movie.
  destruct (rating_param m) as [r|]; [|by split].
  set (id := next_rowid (movies_seq d) (m_id <$> movies d)).
  assert (movies_seq d < id)%Z as Hlt by apply next_rowid_above_seq.
  assert (0 < id)%Z as Hpos by apply next_rowid_pos.
  rewrite Forall_forall in Hb.
  split; simpl; try done.
  - apply Forall_app. split.
    + apply Forall_forall. intros row [_ Hrow]%list_elem_of_filter.
      specialize (Hb row Hrow). simpl in Hb. lia.
    + constructor; [|done]. simpl. lia.
  - rewrite fmap_app. apply NoDup_app. split; [|split].
    + apply NoDup_fmap_filter. done.
    + intros i (row & -> & [_ Hrow]%list_elem_of_filter)%list_elem_of_fmap
             Heq%list_elem_of_singleton.
      specialize (Hb row Hrow). simpl in Hb, Heq. lia.
    + simpl. apply NoDup_singleton.
  - rewrite fmap_app. apply NoDup_app. split; [|split].
    + apply NoDup_fmap_filter. done.
    + intros k (row & -> & [Hn _]%list_elem_of_filter)%list_elem_of_fmap
             [= Ht Hy]%list_elem_of_singleton.
      apply Hn. by split.
    + simpl. apply NoDup_singleton.
Qed.
End Store.

Lemma same_pair_pair_of (w m : Z) (it : watchlist_item) :
  same_pair w m it ↔ pair_of it = (w, m).
Proof. unfold same_pair, pair_of. split; [by intros [-> ->] | by intros [= -> ->]]. Qed.

Lemma membership_count_present (d : db) (w m : Z) :
  NoDup (pair_of <$> watchlist_items d) →
  Exists (same_pair w m) (watchlist_items d) →
  membership_count d w m = 1.
Proof.
  intros Hnd Hex. unfold membership_count.
  rewrite (list_filter_iff _ (λ it, pair_of it = (w, m)))
    by apply same_pair_pair_of.
  apply filter_unique; [done|].
  eapply Exists_impl; [done|]. intros it. apply same_pair_pair_of.
Qed.

Lemma add_to_watchlist_duplicate (now : Z) (d : db) (w m : Z) :
  Exists (same_pair w m) (watchlist_items d) →
  add_to_watchlist now d w m = (d, false).
Proof. intros Hex. unfold add_to_watchlist. by rewrite bool_decide_eq_true_2. Qed.

Lemma add_to_watchlist_present (now : Z) (d : db) (w m : Z) :
  Exists (same_pair w m) (watchlist_items (add_to_watchlist now d w m).1).
Proof.
  unfold add_to_watchlist. case_bool_decide as Hex; simpl; [done|].
  apply Exists_app. right. by left.
Qed.

Lemma add_to_watchlist_ok (now : Z) (d : db) (w m : Z) :
  db_ok d → db_ok (add_to_watchlist now d w m).1.
Proof.
  intros [Hb Hi Hu Hib Hii Hiu]. unfold add_to_watchlist.
  case_bool_decide as Hex; simpl; [by split|].
  set (id := next_rowid (watchlist_items_seq d) (wi_id <$> watchlist_items d)).
  assert (watchlist_items_seq d < id)%Z as Hlt by apply next_rowid_above_seq.
  assert (0 < id)%Z as Hpos by apply next_rowid_pos.
  rewrite Forall_forall in Hib.
  split; simpl; try done.
  - apply Forall_app. split.
    + apply Forall_forall. intros it Hit. specialize (Hib it Hit).
      simpl in Hib. lia.
    + constructor; [|done]. simpl. lia.
  - rewrite fmap_app. apply NoDup_app. split; [done|]. split.
    + intros i (it & -> & Hit)%list_elem_of_fmap Heq%list_elem_of_singleton.
      specialize (Hib it Hit). simpl in Hib, Heq. lia.
    + simpl. apply NoDup_singleton.
  - rewrite fmap_app. apply NoDup_app. split; [done|]. split.
    + intros k (it & -> & Hit)%list_elem_of_fmap [= Hw Hm]%list_elem_of_singleton.
      apply Hex. apply Exists_exists. exists it. by split.
    + simpl. apply NoDup_singleton.
Qed.



(** C8. Adding the same (watchlist, movie) pair a second time returns
    [False] instead of raising, leaves the store exactly as the first call
    left it, and the pair has exactly one membership row. *)
Theorem duplicate_membership_is_rejected (now1 now2 : Z) (d : db)
    (watchlist_id movie_id : Z) :
  db_ok d →
  let d1 := (add_to_watchlist now1 d watchlist_id movie_id).1 in
  let second := add_to_watchlist now2 d1 watchlist_id movie_id in
  second.2 = false ∧
  second.1 = d1 ∧
  membership_count second.1 watchlist_id movie_id = 1.
Proof.
  intros Hok d1 second.
  assert (second = (d1, false)) as ->.
  { apply add_to_watchlist_duplicate, add_to_watchlist_present. }
  simpl. split; [done|]. split; [done|].
  apply membership_count_present.
  - apply (items_unique _ (add_to_watchlist_ok now1 d watchlist_id movie_id Hok)).
  - apply add_to_watchlist_present.
Qed.

Lemma duplicate_membership_is_rejected_witness :
  (add_to_watchlist 20 (add_to_watchlist 10 empty_db 1 7).1 1 7).2 = false ∧
  (add_to_watchlist 20 (add_to_watchlist 10 empty_db 1 7).1 1 7).1
  = (add_to_watchlist 10 empty_db 1 7).1 ∧
  membership_count
    (add_to_watchlist 20 (add_to_watchlist 10 empty_db 1 7).1 1 7).1 1 7 = 1.
Proof.
  apply (duplicate_membership_is_rejected 10 20 empty_db 1 7).
  split; simpl; constructor.
Defined.

End DatabaseProps.

(** ** The classification loop *)
Module ClassifierProps.
Import PyStr OMDb Database Classifier Views.
Local Open Scope list_scope.

Lemma found_true (m : MovieRecord) : found m = true ↔ source m ≠ "Not Found".
Proof. unfold found. rewrite negb_true_iff, bool_decide_eq_false. done. Qed.

Lemma found_false (m : MovieRecord) : found m = false ↔ source m = "Not Found".
Proof. unfold found. rewrite negb_false_iff, bool_decide_eq_true. done. Qed.

(** *** The loop and its components *)
Section Loop.
Context `{Builtins} `{World}.

Lemma classify_loop_unfold (cb : bool) (total i : nat) (titles : list string)
    (cm : buckets) (st : state) :
  classify_loop cb total i titles cm st =
  (fold_left file_record (batch_records (requests st) titles) cm,
   {| database := batch_db (requests st) titles (database st);
      processed_movies :=
        processed_movies st ++ batch_records (requests st) titles;
      requests := requests st + length titles;
      trace := trace st ++ batch_events cb total i (requests st) titles |}).
Proof.
  revert i cm st. induction titles as [|title rest IH]; intros i cm st.
  - simpl. destruct st. simpl. by rewrite !app_nil_r, Nat.add_0_r.
  - cbn [classify_loop batch_records batch_db batch_events fold_left length].
    unfold title_events, store_record, get_movie_data. cbn beta iota zeta.
    destruct cb; cbn [log requests database processed_movies trace];
      fold (record_at (requests st) title);
      set (m := record_at (requests st) title); clearbody m;
      rewrite IH; clear IH;
      unfold store_if_found, record_processed, log;
      destruct (found m); simpl;
      rewrite <- ?app_assoc; simpl; repeat f_equal; lia.
Qed.

Lemma classify_movies_unfold (titles : list string) (cb : bool) (st : state) :
  classify_movies titles cb st =
  (fold_left file_record (batch_records (requests st) titles) empty_buckets,
   {| database := batch_db (requests st) titles (database st);
      processed_movies := batch_records (requests st) titles;
      requests := requests st + length titles;
      trace := trace st ++ batch_events cb (length titles) 0 (requests st) titles |}).
Proof. unfold classify_movies. by rewrite classify_loop_unfold. Qed.

Lemma batch_records_app (n : nat) (titles more : list string) :
  batch_records n (titles ++ more) =
  batch_records n titles ++ batch_records (n + length titles) more.
Proof.
  revert n. induction titles as [|t titles IH]; intros n; simpl.
  - by rewrite Nat.add_0_r.
  - rewrite IH. do 3 f_equal. lia.
Qed.

Lemma batch_records_length (n : nat) (titles : list string) :
  length (batch_records n titles) = length titles.
Proof. revert n. induction titles; intros n; simpl; [done|]. by rewrite IHtitles. Qed.

Lemma batch_records_lookup (n i : nat) (titles : list string) (title : string) :
  titles !! i = Some title →
  batch_records n titles !! i = Some (record_at (n + i) title).
Proof.
  revert n i. induction titles as [|t titles IH]; intros n [|i]; simpl; try done.
  - intros [= ->]. by rewrite Nat.add_0_r.
  - intros Hi. rewrite (IH (S n) i Hi). do 2 f_equal. lia.
Qed.
End Loop.

(** *** Filing a record into the buckets *)

Lemma unknown_recognized : "Unknown" ∈ default_genres.
Proof. unfold default_genres. do 18 apply list_elem_of_further. apply list_elem_of_here. Qed.

Lemma empty_buckets_keys : keys_ok empty_buckets.
Proof.
  intros genre. unfold empty_buckets.
  destruct (list_to_map _ !! genre) as [l|] eqn:Hl.
  - split; [intros _|by eauto].
    apply elem_of_list_to_map_2, list_elem_of_fmap in Hl as (g & [= -> _] & Hg).
    done.
  - split; [by intros [? ?]|]. intros Hg.
    apply not_elem_of_list_to_map_2 in Hl. exfalso. apply Hl.
    rewrite <- list_fmap_compose. apply list_elem_of_fmap. by exists genre.
Qed.

Lemma append_to_lookup_eq (g : string) (m : MovieRecord) (cm : buckets)
    (l : list MovieRecord) :
  cm !! g = Some l → append_to g m cm !! g = Some (l ++ [m]).
Proof. intros Hl. unfold append_to. by rewrite lookup_alter_eq, Hl. Qed.

Lemma append_to_lookup_ne (g g' : string) (m : MovieRecord) (cm : buckets) :
  g ≠ g' → append_to g m cm !! g' = cm !! g'.
Proof. intros Hne. unfold append_to. by rewrite lookup_alter_ne. Qed.

Lemma append_to_keys (g : string) (m : MovieRecord) (cm : buckets) :
  keys_ok cm → keys_ok (append_to g m cm).
Proof.
  intros Hk g'. rewrite <- (Hk g'). unfold append_to.
  destruct (decide (g = g')) as [->|Hne].
  - rewrite lookup_alter_eq. apply fmap_is_Some.
  - by rewrite lookup_alter_ne.
Qed.

Lemma grows_refl (cm : buckets) : grows cm cm.
Proof. intros g l Hl. exists []. by rewrite app_nil_r. Qed.

Lemma grows_trans (cm1 cm2 cm3 : buckets) :
  grows cm1 cm2 → grows cm2 cm3 → grows cm1 cm3.
Proof.
  intros H12 H23 g l Hl. destruct (H12 g l Hl) as [l1 Hl1].
  destruct (H23 g _ Hl1) as [l2 Hl2]. exists (l1 ++ l2). by rewrite app_assoc.
Qed.

Lemma append_to_grows (g : string) (m : MovieRecord) (cm : buckets) :
  grows cm (append_to g m cm).
Proof.
  intros g' l Hl. destruct (decide (g = g')) as [->|Hne].
  - exists [m]. by apply append_to_lookup_eq.
  - exists []. by rewrite app_nil_r, append_to_lookup_ne.
Qed.

Lemma filed_grows (m : MovieRecord) (g : string) (cm cm' : buckets) :
  grows cm cm' → filed m g cm → filed m g cm'.
Proof.
  intros Hg (l & Hl & Hm). destruct (Hg g l Hl) as [l' Hl'].
  exists (l ++ l'). split; [done|]. apply elem_of_app. by left.
Qed.

Lemma append_to_filed (g : string) (m : MovieRecord) (cm : buckets) :
  is_Some (cm !! g) → filed m g (append_to g m cm).
Proof.
  intros [l Hl]. exists (l ++ [m]). split; [by apply append_to_lookup_eq|].
  apply elem_of_app. right. apply list_elem_of_here.
Qed.

Lemma file_genres_spec (m : MovieRecord) (gs : list string) (cm : buckets) :
  keys_ok cm →
  keys_ok (file_genres m gs cm) ∧
  grows cm (file_genres m gs cm) ∧
  (∀ g, g ∈ gs → g ∈ default_genres → filed m g (file_genres m gs cm)) ∧
  (∀ g, g ∈ gs → g ∉ default_genres → filed m "Unknown" (file_genres m gs cm)).
Proof.
  revert cm. induction gs as [|g0 gs IH]; intros cm Hk; simpl.
  - split; [done|]. split; [apply grows_refl|].
    split; intros g ?%elem_of_nil; done.
  - set (cm1 := if bool_decide (is_Some (cm !! g0))
                then append_to g0 m cm else append_to "Unknown" m cm).
    assert (keys_ok cm1) as Hk1.
    { unfold cm1. case_bool_decide; by apply append_to_keys. }
    assert (grows cm cm1) as Hg1.
    { unfold cm1. case_bool_decide; apply append_to_grows. }
    destruct (IH cm1 Hk1) as (Hk' & Hg' & Hrec & Hunk).
    split; [done|]. split; [by eapply grows_trans|].
    split; intros g [->|Hin]%elem_of_cons Hdef; eauto.
    + apply (filed_grows _ _ cm1); [done|]. unfold cm1.
      apply Hk in Hdef as Hsome. rewrite bool_decide_eq_true_2 by done.
      by apply append_to_filed.
    + apply (filed_grows _ _ cm1); [done|]. unfold cm1.
      rewrite bool_decide_eq_false_2 by (by intros ?%Hk).
      apply append_to_filed, Hk, unknown_recognized.
Qed.

(** Genres outside the recognized set each append to ["Unknown"]. *)
Lemma file_genres_unrecognized (m : MovieRecord) (gs : list string)
    (cm : buckets) (l : list MovieRecord) :
  keys_ok cm →
  cm !! "Unknown" = Some l →
  Forall (λ g, g ∉ default_genres) gs →
  file_genres m gs cm !! "Unknown" = Some (l ++ replicate (length gs) m).
Proof.
  revert cm l. induction gs as [|g0 gs IH]; intros cm l Hk Hl Hall; simpl.
  - by rewrite app_nil_r.
  - apply Forall_cons in Hall as [Hg0 Hall].
    rewrite bool_decide_eq_false_2 by (by intros ?%Hk).
    rewrite (IH _ (l ++ [m])); [by rewrite <- app_assoc| |by apply append_to_lookup_eq|done].
    by apply append_to_keys.
Qed.

Lemma file_record_keys (cm : buckets) (m : MovieRecord) :
  keys_ok cm → keys_ok (file_record cm m).
Proof.
  intros Hk. unfold file_record.
  destruct (_ || _); [by apply append_to_keys|]. by apply file_genres_spec.
Qed.

Lemma file_record_grows (cm : buckets) (m : MovieRecord) :
  keys_ok cm → grows cm (file_record cm m).
Proof.
  intros Hk. unfold file_record.
  destruct (_ || _); [by apply append_to_grows|]. by apply file_genres_spec.
Qed.

Lemma fold_file_record_keys (recs : list MovieRecord) (cm : buckets) :
  keys_ok cm → keys_ok (fold_left file_record recs cm).
Proof.
  revert cm. induction recs as [|m recs IH]; intros cm Hk; simpl; [done|].
  by apply IH, file_record_keys.
Qed.

Lemma fold_file_record_grows (recs : list MovieRecord) (cm : buckets) :
  keys_ok cm → grows cm (fold_left file_record recs cm).
Proof.
  revert cm. induction recs as [|m recs IH]; intros cm Hk; simpl.
  - apply grows_refl.
  - eapply grows_trans; [by apply file_record_grows|].
    by apply IH, file_record_keys.
Qed.

Lemma filed_by_genre_grows (m : MovieRecord) (cm cm' : buckets) :
  grows cm cm' → filed_by_genre m cm → filed_by_genre m cm'.
Proof.
  intros Hg (Ha & Hb & Hc).
  split; [|split]; eauto using filed_grows.
Qed.

Lemma file_record_files (cm : buckets) (m : MovieRecord) :
  keys_ok cm → filed_by_genre m (file_record cm m).
Proof.
  intros Hk. unfold file_record, filed_by_genre.
  assert (filed m "Unknown" (append_to "Unknown" m cm)) as Hunk.
  { apply append_to_filed, Hk, unknown_recognized. }
  destruct (bool_decide (genres m = [])) eqn:Hnil; simpl.
  { apply bool_decide_eq_true in Hnil. rewrite Hnil.
    split; [|split]; try done; by intros g ?%elem_of_nil. }
  destruct (bool_decide (genres m = ["Unknown"])) eqn:Hone.
  { apply bool_decide_eq_true in Hone. rewrite Hone.
    split; [|split].
    - by intros g ->%list_elem_of_singleton _.
    - done.
    - intros g ->%list_elem_of_singleton Hno. destruct Hno. apply unknown_recognized. }
  apply bool_decide_eq_false in Hnil, Hone.
  destruct (file_genres_spec m (genres m) cm Hk) as (_ & _ & Hrec & Hno).
  split; [done|]. split; [|done]. by intros [?|?].
Qed.

Lemma fold_file_record_files (recs : list MovieRecord) (cm : buckets)
    (m : MovieRecord) :
  keys_ok cm → m ∈ recs → filed_by_genre m (fold_left file_record recs cm).
Proof.
  revert cm. induction recs as [|m0 recs IH]; intros cm Hk Hin; simpl.
  - by apply elem_of_nil in Hin.
  - apply elem_of_cons in Hin as [->|Hin].
    + eapply filed_by_genre_grows; [|by apply file_record_files].
      by apply fold_file_record_grows, file_record_keys.
    + by apply IH; [apply file_record_keys|].
Qed.

Section Filing.
Context `{Builtins} `{World}.

(** C1. The record of every title of a batch (the one the lookup of the
    stripped title returns) is kept at the title's position in the list of
    processed records, and: it is in the bucket of each of its genres that
    is a recognized genre; it is in the ["Unknown"] bucket when it has no
    genre or exactly [["Unknown"]], which holds in particular for every
    title that was not found; and it is in the ["Unknown"] bucket when it
    has a genre outside the recognized set. *)
Theorem records_are_filed_by_genre (titles : list string) (cb : bool)
    (st : state) (i : nat) (title : string) :
  titles !! i = Some title →
  let run := classify_movies titles cb st in
  let movie_data := record_at (requests st + i) title in
  processed_movies run.2 !! i = Some movie_data ∧
  (∀ genre, genre ∈ genres movie_data → genre ∈ default_genres →
     filed movie_data genre run.1) ∧
  (genres movie_data = [] ∨ genres movie_data = ["Unknown"] →
     filed movie_data "Unknown" run.1) ∧
  (source movie_data = "Not Found" → filed movie_data "Unknown" run.1) ∧
  (∀ genre, genre ∈ genres movie_data → genre ∉ default_genres →
     filed movie_data "Unknown" run.1).
Proof.
  intros Hi run m. unfold run. rewrite classify_movies_unfold. simpl.
  pose proof (batch_records_lookup (requests st) i titles title Hi) as Hm.
  fold m in Hm. split; [exact Hm|].
  destruct (fold_file_record_files (batch_records (requests st) titles)
              empty_buckets m empty_buckets_keys
              (list_elem_of_lookup_2 _ _ _ Hm)) as (Hrec & Hunk & Hout).
  split; [exact Hrec|]. split; [exact Hunk|]. split; [|exact Hout].
  intros Hsrc. apply Hunk. right. unfold m, record_at in *.
  apply OMDbProps.get_movie_data_source in Hsrc.
  unfold OMDb.get_movie_data. by rewrite Hsrc.
Qed.

(** C10. The record of the last title of a batch lengthens the
    ["Unknown"] bucket by one copy per genre when it has two or more
    genres, none of them recognized, and by exactly one copy when its
    genre list is empty or is [["Unknown"]]. *)
Theorem unknown_bucket_multiplicity (titles : list string) (title : string)
    (cb : bool) (st : state) :
  let movie_data := record_at (requests st + length titles) title in
  let before := (classify_movies titles cb st).1 in
  let after := (classify_movies (titles ++ [title]) cb st).1 in
  ∃ l,
    before !! "Unknown" = Some l ∧
    ((2 ≤ length (genres movie_data))%nat →
     Forall (λ genre, genre ∉ default_genres) (genres movie_data) →
     after !! "Unknown"
     = Some (l ++ replicate (length (genres movie_data)) movie_data)) ∧
    (genres movie_data = [] ∨ genres movie_data = ["Unknown"] →
     after !! "Unknown" = Some (l ++ [movie_data])).
Proof.
  intros m before after. unfold before, after.
  rewrite !classify_movies_unfold. simpl.
  rewrite batch_records_app, fold_left_app. simpl.
  fold m.
  set (cm := fold_left file_record (batch_records (requests st) titles)
               empty_buckets).
  assert (keys_ok cm) as Hk
    by apply fold_file_record_keys, empty_buckets_keys.
  destruct (proj2 (Hk "Unknown") unknown_recognized) as [l Hl].
  exists l. split; [done|]. unfold file_record. split.
  - intros Hlen Hall.
    rewrite !bool_decide_eq_false_2.
    + by apply file_genres_unrecognized.
    + intros Hg. rewrite Hg in Hlen. simpl in Hlen. lia.
    + intros Hg. rewrite Hg in Hlen. simpl in Hlen. lia.
  - intros Hg.
    assert (bool_decide (genres m = []) || bool_decide (genres m = ["Unknown"])
            = true) as ->.
    { destruct Hg as [Hg|Hg]; rewrite Hg; reflexivity. }
    by apply append_to_lookup_eq.
Qed.
End Filing.

Lemma records_are_filed_by_genre_witness :
  let run :=
    classify_movies (H := Sample.builtins) (H0 := Sample.world)
      ["The Matrix"; "Zzznonexistentmovie123"] false Sample.fresh in
  processed_movies run.2 !! 0 = Some (found_record Sample.matrix "The Matrix") ∧
  filed (found_record Sample.matrix "The Matrix") "Action" run.1 ∧
  filed (found_record Sample.matrix "The Matrix") "Unknown" run.1 ∧
  processed_movies run.2 !! 1 = Some (minimal_record "Zzznonexistentmovie123") ∧
  filed (minimal_record "Zzznonexistentmovie123") "Unknown" run.1.
Proof.
  destruct (records_are_filed_by_genre (H := Sample.builtins)
              (H0 := Sample.world)
              ["The Matrix"; "Zzznonexistentmovie123"] false Sample.fresh
              0 "The Matrix" eq_refl) as (Hfirst & Hrec & _ & _ & Hout).
  destruct (records_are_filed_by_genre (H := Sample.builtins)
              (H0 := Sample.world)
              ["The Matrix"; "Zzznonexistentmovie123"] false Sample.fresh
              1 "Zzznonexistentmovie123" eq_refl) as (Hsecond & _ & _ & Hnot & _).
  split; [exact Hfirst|]. split.
  { apply Hrec.
    - apply (bool_decide_unpack _). vm_compute. exact I.
    - apply (bool_decide_unpack _). vm_compute. exact I. }
  split.
  { apply (Hout "Sci-Fi").
    - apply (bool_decide_unpack _). vm_compute. exact I.
    - apply (bool_decide_unpack _). vm_compute. exact I. }
  split; [exact Hsecond|]. apply Hnot. vm_compute. reflexivity.
Defined.

Lemma unknown_bucket_multiplicity_witness :
  let movie_data := found_record Sample.blade_runner "Blade Runner" in
  ∃ l,
    (classify_movies (H := Sample.builtins) (H0 := Sample.world)
       ["The Matrix"] false Sample.fresh).1 !! "Unknown" = Some l ∧
    (classify_movies (H := Sample.builtins) (H0 := Sample.world)
       (["The Matrix"] ++ ["Blade Runner"]) false Sample.fresh).1 !! "Unknown"
    = Some (l ++ replicate 2 movie_data).
Proof.
  destruct (unknown_bucket_multiplicity (H := Sample.builtins)
              (H0 := Sample.world) ["The Matrix"] "Blade Runner" false
              Sample.fresh) as (l & Hbefore & Hmany & _).
  exists l. split; [exact Hbefore|]. apply Hmany.
  - vm_compute. lia.
  - apply (bool_decide_unpack _). vm_compute. exact I.
Defined.

(** *** The progress callback *)

Lemma cons_eq_app_progress (e : event) (l pre post : list event) (c t : nat) :
  e :: l = pre ++ Progress c t :: post →
  (pre = [] ∧ e = Progress c t ∧ l = post) ∨
  (∃ pre', pre = e :: pre' ∧ l = pre' ++ Progress c t :: post).
Proof. destruct pre as [|e' pre']; simpl; intros [= -> ->]; eauto. Qed.

Lemma progress_of_app (tr1 tr2 : list event) :
  progress_of (tr1 ++ tr2) = progress_of tr1 ++ progress_of tr2.
Proof. apply omap_app. Qed.

Lemma added_of_app (tr1 tr2 : list event) :
  added_of (tr1 ++ tr2) = added_of tr1 ++ added_of tr2.
Proof. apply omap_app. Qed.

Section Events.
Context `{Builtins} `{World}.

Lemma batch_events_progress_of (cb : bool) (total i n : nat)
    (titles : list string) :
  progress_of (batch_events cb total i n titles) =
  if cb then (λ k, (k + 1, total)) <$> seq i (length titles) else [].
Proof.
  revert i n. induction titles as [|t titles IH]; intros i n; simpl.
  - by destruct cb.
  - rewrite progress_of_app, IH. unfold title_events.
    destruct cb, (found (record_at n t)); reflexivity.
Qed.

(** With a callback, each call reports the position of the title that is
    about to be looked up. *)
Lemma batch_events_progress (total i n : nat) (titles : list string)
    (pre post : list event) (current tot : nat) :
  batch_events true total i n titles = pre ++ Progress current tot :: post →
  tot = total ∧ current = i + lookups pre + 1 ∧
  ∃ title post',
    titles !! lookups pre = Some title ∧
    post = Lookup (py_strip title) :: post'.
Proof.
  revert i n pre. induction titles as [|t titles IH]; intros i n pre; simpl.
  - intros Heq. by destruct pre.
  - unfold title_events. simpl. intros Heq.
    apply cons_eq_app_progress in Heq
      as [(-> & [= <- <-] & <-) | (pre1 & -> & Heq)].
    { split; [done|]. split; [unfold lookups; simpl; lia|]. simpl. eauto. }
    apply cons_eq_app_progress in Heq
      as [(_ & [=] & _) | (pre2 & -> & Heq)].
    assert (∃ pre3, Sleep :: batch_events true total (S i) (S n) titles
                    = pre3 ++ Progress current tot :: post ∧
                    lookups pre2 = lookups pre3) as (pre3 & Heq3 & Hl3).
    { destruct (found (record_at n t)); simpl in Heq; [|by exists pre2].
      apply cons_eq_app_progress in Heq
        as [(_ & [=] & _) | (pre3 & -> & Heq)].
      by exists pre3. }
    apply cons_eq_app_progress in Heq3
      as [(_ & [=] & _) | (pre4 & -> & Heq4)].
    destruct (IH _ _ _ Heq4) as (-> & -> & title & post' & Ht & ->).
    assert (lookups (Progress (i + 1) total :: Lookup (py_strip t) :: pre2)
            = S (lookups pre4)) as ->.
    { unfold lookups in *. simpl. by rewrite Hl3. }
    split; [done|]. split; [lia|]. simpl. eauto.
Qed.

Lemma batch_events_added (cb : bool) (total i n : nat) (titles : list string) :
  added_of (batch_events cb total i n titles) =
  filter (λ m, source m ≠ "Not Found") (batch_records n titles).
Proof.
  revert i n. induction titles as [|t titles IH]; intros i n; simpl; [done|].
  rewrite added_of_app, IH, filter_cons. unfold title_events.
  destruct (found (record_at n t)) eqn:Hf.
  - apply found_true in Hf. rewrite decide_True by done. by destruct cb.
  - apply found_false in Hf. rewrite decide_False by (by intros []).
    by destruct cb.
Qed.

(** C6, as the code has it. The callback, when one is passed, runs once
    per title and before that title's lookup: it is called with the
    1-based position of the title about to be looked up, which is one more
    than the number of lookups completed so far, and with the number of
    titles; the lookup of that title is the next event.  Without a
    callback nothing is reported. *)
Theorem progress_reported_before_each_lookup (titles : list string)
    (cb : bool) (st : state) :
  ∃ new,
    trace (classify_movies titles cb st).2 = trace st ++ new ∧
    progress_of new =
      (if cb then (λ i, (i + 1, length titles)) <$> seq 0 (length titles)
       else []) ∧
    ∀ pre current total post,
      new = pre ++ Progress current total :: post →
      total = length titles ∧
      current = lookups pre + 1 ∧
      ∃ title post',
        titles !! lookups pre = Some title ∧
        post = Lookup (py_strip title) :: post'.
Proof.
  rewrite classify_movies_unfold. simpl.
  eexists. split; [done|]. split; [apply batch_events_progress_of|].
  intros pre current total post Heq. destruct cb.
  - by apply batch_events_progress in Heq.
  - apply (f_equal progress_of) in Heq.
    rewrite batch_events_progress_of, progress_of_app in Heq. simpl in Heq.
    by destruct (progress_of pre).
Qed.
End Events.

Lemma progress_reported_before_each_lookup_witness :
  ∃ post,
    trace (classify_movies (H := Sample.builtins) (H0 := Sample.world)
             ["The Matrix"] true Sample.fresh).2
    = Progress 1 1 :: post ∧
    ∃ title post',
      ["The Matrix"] !! lookups [] = Some title ∧
      post = Lookup (Sample.strip title) :: post'.
Proof.
  destruct (progress_reported_before_each_lookup (H := Sample.builtins)
              (H0 := Sample.world) ["The Matrix"] true Sample.fresh)
    as (new & Htrace & _ & Hcalls).
  change (trace Sample.fresh ++ new) with new in Htrace.
  assert (∃ post, new = [] ++ Progress 1 1 :: post) as [post Hnew].
  { rewrite <- Htrace. vm_compute. eexists. reflexivity. }
  exists post. split; [by rewrite Htrace, Hnew|].
  destruct (Hcalls [] 1 1 post Hnew) as (_ & _ & Hnext). exact Hnext.
Defined.

(** C6, as the claim words it (the count passed to the callback is the
    number of lookups completed so far), fails on a batch of one title: the
    callback receives 1 before any lookup has been made. *)
Lemma progress_count_is_not_completed_lookups :
  ¬ (∀ pre current total post,
       trace (classify_movies (H := Sample.builtins) (H0 := Sample.world)
                ["The Matrix"] true Sample.fresh).2
       = pre ++ Progress current total :: post →
       current = lookups pre).
Proof.
  intros Hclaim.
  assert (∃ post,
            trace (classify_movies (H := Sample.builtins) (H0 := Sample.world)
                     ["The Matrix"] true Sample.fresh).2
            = [] ++ Progress 1 1 :: post) as [post Hrun].
  { vm_compute. eexists. reflexivity. }
  specialize (Hclaim [] 1 1 post Hrun). discriminate Hclaim.
Qed.

(** *** What reaches the store *)
Section Persistence.
Context `{Builtins} `{World}.

Lemma add_movie_row_origin (now : Z) (d : db) (m : MovieRecord)
    (row : movie_row) :
  row ∈ movies (add_movie now d m).1 →
  row ∈ movies d ∨
  ∃ movie_id r, rating_param m = Some r ∧ row = new_row movie_id now r m.
Proof.
  unfold add_movie. destruct (rating_param m) as [r|]; simpl; [|by left].
  intros [[_ Hin]%list_elem_of_filter | ->%list_elem_of_singleton]%elem_of_app.
  - by left.
  - right. eauto.
Qed.

(** Every row of the table was there before the batch or was built from
    a found record of the batch. *)
Lemma batch_db_rows (n : nat) (titles : list string) (d : db)
    (row : movie_row) :
  row ∈ movies (batch_db n titles d) →
  row ∈ movies d ∨
  ∃ m movie_id now r,
    m ∈ batch_records n titles ∧ source m ≠ "Not Found" ∧
    rating_param m = Some r ∧ row = new_row movie_id now r m.
Proof.
  revert n d. induction titles as [|t titles IH]; intros n d; simpl.
  - by left.
  - intros [Hin|(m & id & now & r & Hm & Hsrc & Hr & ->)]%IH.
    + unfold store_record in Hin.
      destruct (found (record_at n t)) eqn:Hf; [|by left].
      apply add_movie_row_origin in Hin as [Hin|(id & r & Hr & ->)]; [by left|].
      right. exists (record_at n t), id, (current_timestamp (S n)), r.
      split; [apply list_elem_of_here|]. by rewrite <- found_true.
    + right. exists m, id, now, r. split; [by apply list_elem_of_further|done].
Qed.

Lemma batch_db_app (n : nat) (titles more : list string) (d : db) :
  batch_db n (titles ++ more) d =
  batch_db (n + length titles) more (batch_db n titles d).
Proof.
  revert n d. induction titles as [|t titles IH]; intros n d; simpl.
  - by rewrite Nat.add_0_r.
  - rewrite IH. by replace (S n + length titles) with (n + S (length titles)) by lia.
Qed.

(** C9, as the code has it. The record of a title joins the in-memory
    list whatever its source, and [add_movie] is called exactly for the
    records whose source is not ['Not Found']; every row of the movies table
    after the batch was there before it or holds the fields of such a
    record.  For the title processed last: a not-found record leaves the store as it was; so does a found
    record whose rating [float] rejects (the exception is caught inside
    [add_movie]); any other found record becomes the one row of its
    (title, year) pair, under a row id above all earlier ones and with the
    record's values column by column, while the rows of other pairs stay. *)
Theorem only_found_records_are_stored (titles : list string)
    (movie_title : string) (cb : bool) (st : state) :
  let before := (classify_movies titles cb st).2 in
  let after := (classify_movies (titles ++ [movie_title]) cb st).2 in
  let movie_data := record_at (requests st + length titles) movie_title in
  processed_movies after = processed_movies before ++ [movie_data] ∧
  (∃ new, trace after = trace st ++ new ∧
     added_of new
     = filter (λ m, source m ≠ "Not Found") (processed_movies after)) ∧
  (∀ row, row ∈ movies (database after) →
     row ∈ movies (database st) ∨
     ∃ m, m ∈ processed_movies after ∧ source m ≠ "Not Found" ∧
          m_title row = title m ∧ m_year row = year m ∧
          m_genres row = join ", " (genres m) ∧
          m_director row = director m ∧ m_actors row = actors m ∧
          m_runtime row = runtime m ∧ m_overview row = overview m ∧
          m_poster_url row = poster m ∧ m_imdb_id row = imdb_id m) ∧
  (source movie_data = "Not Found" → database after = database before) ∧
  (source movie_data ≠ "Not Found" →
   (∀ s, rating movie_data = Some s → s ≠ "" → s ≠ "N/A" →
      py_float s = None → database after = database before) ∧
   (∀ r,
      (∃ s, rating movie_data = Some s ∧ s ≠ "" ∧ s ≠ "N/A" ∧
            py_float s = Some r) ∨
      ((rating movie_data = None ∨ rating movie_data = Some "" ∨
        rating movie_data = Some "N/A") ∧ r = 0%float) →
      ∃ movie_id,
        Forall (λ row, (m_id row < movie_id)%Z) (movies (database before)) ∧
        rows_for (database after) (title movie_data) (year movie_data) =
        [ {| m_id := movie_id;
             m_title := title movie_data;
             m_year := year movie_data;
             m_genres := join ", " (genres movie_data);
             m_rating :=
               if PrimFloat.is_nan r then None
               else if PrimFloat.eqb r 0 then Some 0%float
               else Some r;
             m_director := director movie_data;
             m_actors := actors movie_data;
             m_runtime := runtime movie_data;
             m_overview := overview movie_data;
             m_poster_url := poster movie_data;
             m_imdb_id := imdb_id movie_data;
             m_date_added :=
               current_timestamp (S (requests st + length titles)) |} ] ∧
        ∀ t y, (t, y) ≠ (title movie_data, year movie_data) →
          rows_for (database after) t y = rows_for (database before) t y)).
Proof.
  intros before after m. unfold before, after.
  rewrite !classify_movies_unfold. simpl.
  rewrite batch_records_app, batch_db_app. simpl. fold m.
  set (d := batch_db (requests st) titles (database st)).
  split; [done|].
  split.
  { eexists. split; [done|].
    by rewrite batch_events_added, batch_records_app. }
  split.
  { intros row Hrow.
    change (store_record _ d m)
      with (batch_db (requests st + length titles) [movie_title] d) in Hrow.
    unfold d in Hrow. rewrite <- batch_db_app in Hrow.
    apply batch_db_rows in Hrow as [Hrow|(m' & id & now & r & Hm & Hsrc & _ & ->)];
      [by left|].
    right. exists m'. rewrite batch_records_app in Hm. by repeat split. }
  unfold store_record. split.
  { intros Hsrc. by rewrite (proj2 (found_false _) Hsrc). }
  intros Hsrc. rewrite (proj2 (found_true _) Hsrc). split.
  - intros s Hs Hne Hna Hf. rewrite DatabaseProps.add_movie_failure; [done|].
    apply DatabaseProps.rating_param_None. eauto 6.
  - intros r Hr%DatabaseProps.rating_param_Some.
    destruct (DatabaseProps.add_movie_rows
                (current_timestamp (S (requests st + length titles))) d m r Hr)
      as (movie_id & _ & -> & Hrows).
    eexists. split; [|split; [exact Hrows|]].
    + pose proof (DatabaseProps.next_rowid_above_ids
                    (movies_seq d) (m_id <$> movies d)) as Hids.
      rewrite Forall_fmap in Hids. exact Hids.
    + intros t y Hne. by apply DatabaseProps.add_movie_other_rows.
Qed.
End Persistence.

Lemma only_found_records_are_stored_witness :
  let before :=
    (classify_movies (H := Sample.builtins) (H0 := Sample.world)
       ["Zzznonexistentmovie123"] false Sample.fresh).2 in
  let after :=
    (classify_movies (H := Sample.builtins) (H0 := Sample.world)
       (["Zzznonexistentmovie123"] ++ ["The Matrix"]) false Sample.fresh).2 in
  length (processed_movies after) = 2 ∧
  movies (database before) = [] ∧
  ∃ movie_id,
    rows_for (database after) "The Matrix" "1999" =
    [ {| m_id := movie_id;
         m_title := "The Matrix";
         m_year := "1999";
         m_genres := "Action, Sci-Fi";
         m_rating := Some 8.7%float;
         m_director := "Unknown";
         m_actors := "Unknown";
         m_runtime := "Unknown";
         m_overview := "";
         m_poster_url := "";
         m_imdb_id := "tt0133093";
         m_date_added := 1700000002 |} ] ∧
    rows_for (database after) "Zzznonexistentmovie123" "Unknown" = [].
Proof.
  destruct (only_found_records_are_stored (H := Sample.builtins)
              (H0 := Sample.world)
              ["Zzznonexistentmovie123"] "The Matrix" false Sample.fresh)
    as (Hlist & _ & _ & _ & Hfound).
  destruct Hfound as [_ Hrow]; [vm_compute; discriminate|].
  destruct (Hrow 8.7%float) as (movie_id & _ & Hrows & Hothers).
  { left. exists "8.7". split; [vm_compute; reflexivity|].
    split; [discriminate|]. split; [discriminate|]. vm_compute. reflexivity. }
  split; [vm_compute; reflexivity|]. split; [vm_compute; reflexivity|].
  exists movie_id. split; [exact Hrows|].
  rewrite (Hothers "Zzznonexistentmovie123" "Unknown");
    [vm_compute; reflexivity | vm_compute; discriminate].
Defined.

(** C9, as the claim words it (a record is in the store if and only if its
    source is not ['Not Found']), fails on a found record whose rating is
    not a number: [float] raises inside [add_movie], which catches the
    exception and writes nothing. *)
Lemma found_record_is_not_always_stored :
  ¬ (∀ m,
       m ∈ processed_movies
             (classify_movies (H := Sample.builtins)
                (H0 := Sample.malformed_world) ["Untitled"] false
                Sample.fresh).2 →
       (source m ≠ "Not Found" ↔
        rows_for
          (database
             (classify_movies (H := Sample.builtins)
                (H0 := Sample.malformed_world) ["Untitled"] false
                Sample.fresh).2)
          (title m) (year m) ≠ [])).
Proof.
  intros Hclaim.
  destruct (Hclaim (found_record Sample.malformed "Untitled")) as [Hstored _].
  { vm_compute. apply list_elem_of_here. }
  apply Hstored; [vm_compute; discriminate|]. vm_compute. reflexivity.
Qed.

End ClassifierProps.

(** ** Order on floats, from the specification of the primitives *)
Module FloatOrder.
Local Open Scope float_scope.

Lemma SFcompare_antisym (x y : spec_float) :
  SFcompare y x = option_map CompOpp (SFcompare x y).
Proof.
  destruct x as [sx|sx| |sx mx ex], y as [sy|sy| |sy my ey]; simpl;
    repeat match goal with b : bool |- _ => destruct b end; simpl; try done;
    f_equal; rewrite (Z.compare_antisym ey ex);
    destruct (ey ?= ex)%Z; simpl; try done;
    change (Pos.compare_cont Eq) with Pos.compare;
    rewrite (Pos.compare_antisym my mx); by destruct (my ?= mx)%positive.
Qed.

Lemma SFcompare_defined (x y : spec_float) :
  x ≠ S754_nan → y ≠ S754_nan → is_Some (SFcompare x y).
Proof.
  destruct x as [sx|sx| |sx mx ex], y as [sy|sy| |sy my ey]; simpl;
    intros Hx Hy; try done; eauto.
Qed.

(** [≤] is transitive through two positive finite numbers. *)
Lemma SFleb_trans_pos (m1 m2 : positive) (e1 e2 : Z) (s : spec_float) :
  SFleb (S754_finite false m1 e1) (S754_finite false m2 e2) = true →
  SFleb (S754_finite false m2 e2) s = true →
  SFleb (S754_finite false m1 e1) s = true.
Proof.
  unfold SFleb.
  destruct s as [ss|ss| |ss ms es]; simpl; try done.
  destruct ss; simpl; [done|].
  change (Pos.compare_cont Eq) with Pos.compare.
  destruct (Z.compare_spec e1 e2), (Z.compare_spec e2 es), (Z.compare_spec e1 es);
    try lia; try done; subst.
  destruct (Pos.compare_spec m1 m2), (Pos.compare_spec m2 ms),
    (Pos.compare_spec m1 ms); try lia; done.
Qed.

Lemma leb_not_nan (b r : float) : (b <=? r) = true → Prim2SF r ≠ S754_nan.
Proof.
  rewrite FloatAxioms.leb_spec. unfold SFleb. intros Hle Hnan. rewrite Hnan in Hle.
  by destruct (Prim2SF b).
Qed.

Lemma ltb_leb_false (a r : float) : (r <? a) = true → (a <=? r) = false.
Proof.
  rewrite FloatAxioms.ltb_spec, FloatAxioms.leb_spec. unfold SFltb, SFleb.
  rewrite (SFcompare_antisym (Prim2SF r) (Prim2SF a)).
  by destruct (SFcompare (Prim2SF r) (Prim2SF a)) as [[]|].
Qed.

Lemma leb_false_ltb (a r : float) :
  Prim2SF a ≠ S754_nan → Prim2SF r ≠ S754_nan →
  (a <=? r) = false → (r <? a) = true.
Proof.
  intros Ha Hr. rewrite FloatAxioms.ltb_spec, FloatAxioms.leb_spec. unfold SFltb, SFleb.
  rewrite (SFcompare_antisym (Prim2SF a) (Prim2SF r)).
  destruct (SFcompare_defined _ _ Ha Hr) as [c ->]. by destruct c.
Qed.

Lemma leb_trans_pos (b a r : float) (mb ma : positive) (eb ea : Z) :
  Prim2SF b = S754_finite false mb eb →
  Prim2SF a = S754_finite false ma ea →
  (b <=? a) = true → (a <=? r) = true → (b <=? r) = true.
Proof.
  rewrite !FloatAxioms.leb_spec. intros -> ->. apply SFleb_trans_pos.
Qed.

Lemma is_nan_false (r : float) :
  PrimFloat.is_nan r = false → Prim2SF r ≠ S754_nan.
Proof.
  unfold PrimFloat.is_nan. rewrite negb_false_iff, FloatAxioms.eqb_spec.
  intros Heq Hnan. by rewrite Hnan in Heq.
Qed.

(** On numbers, what is not below is at least. *)
Lemma ltb_false_leb (a r : float) :
  PrimFloat.is_nan a = false → PrimFloat.is_nan r = false →
  (a <? r) = false → (r <=? a) = true.
Proof.
  intros Ha%is_nan_false Hr%is_nan_false Hlt.
  destruct (r <=? a) eqn:Hle; [done|].
  by rewrite (leb_false_ltb r a Hr Ha Hle) in Hlt.
Qed.

(** The thresholds of the rating histogram. *)
Lemma leb_9_7 (r : float) : (9 <=? r) = true → (7 <=? r) = true.
Proof. by apply (leb_trans_pos 7 9 r _ _ _ _ eq_refl eq_refl). Qed.

Lemma leb_7_5 (r : float) : (7 <=? r) = true → (5 <=? r) = true.
Proof. by apply (leb_trans_pos 5 7 r _ _ _ _ eq_refl eq_refl). Qed.

Lemma leb_5_3 (r : float) : (5 <=? r) = true → (3 <=? r) = true.
Proof. by apply (leb_trans_pos 3 5 r _ _ _ _ eq_refl eq_refl). Qed.

(** Between two thresholds: at least the lower, not at least the upper,
    is the same as at least the lower and below the upper. *)
Lemma between (lo hi r : float) :
  Prim2SF hi ≠ S754_nan →
  (lo <=? r) = true →
  ((hi <=? r) = false ↔ (r <? hi) = true).
Proof.
  intros Hhi Hlo. split; [|apply ltb_leb_false].
  apply leb_false_ltb; [done|]. by eapply leb_not_nan.
Qed.

End FloatOrder.

(** ** Statistics of a batch *)
Module StatisticsProps.
Import PyStr OMDb Database Classifier Views FloatOrder ClassifierProps.
Local Open Scope list_scope.
Local Open Scope float_scope.

(** *** The rating histogram *)

(** What is known of [r <? hi] once [hi <=? r] has been decided. *)
Ltac below hi :=
  match goal with
  | H : (hi <=? ?r) = true |- _ =>
      assert ((r <? hi) = true → False)
        by (intros Hlt%ltb_leb_false; congruence)
  | H : (hi <=? ?r) = false, H' : (_ <=? ?r) = true |- _ =>
      assert ((r <? hi) = true)
        by (apply (proj1 (between _ hi r ltac:(done) H') H))
  | _ => idtac
  end.

Lemma category_key_bounds (r : float) :
  (category_key r = "Excellent (9-10)" ↔ (9 <=? r) = true) ∧
  (category_key r = "Good (7-8.9)" ↔ (7 <=? r) = true ∧ (r <? 9) = true) ∧
  (category_key r = "Average (5-6.9)" ↔ (5 <=? r) = true ∧ (r <? 7) = true) ∧
  (category_key r = "Poor (3-4.9)" ↔ (3 <=? r) = true ∧ (r <? 5) = true) ∧
  (category_key r = "Bad (0-2.9)" ↔ (3 <=? r) = false).
Proof.
  unfold category_key.
  destruct (9 <=? r) eqn:H9, (7 <=? r) eqn:H7, (5 <=? r) eqn:H5,
    (3 <=? r) eqn:H3;
    try (rewrite (leb_9_7 r H9) in H7; discriminate H7);
    try (rewrite (leb_7_5 r H7) in H5; discriminate H5);
    try (rewrite (leb_5_3 r H5) in H3; discriminate H3);
    below 9; below 7; below 5;
    repeat split; intros; try done; try discriminate;
    try (exfalso; intuition congruence).
Qed.


Lemma category_key_in (r : float) : category_key r ∈ category_keys.
Proof.
  unfold category_key, category_keys.
  repeat (destruct (_ <=? r)); rewrite !elem_of_cons; tauto.
Qed.

(** Counting the ratings one by one adds, under each key, the number of
    ratings that fall under it. *)
Lemma count_ratings_lookup (ratings : list float) (cats : gmap string nat)
    (key : string) :
  fold_left (λ c r, alter S (category_key r) c) ratings cats !! key =
  (λ n, (n + ratings_under key ratings)%nat) <$> cats !! key.
Proof.
  revert cats. induction ratings as [|r ratings IH]; intros cats; simpl.
  - unfold ratings_under. simpl. destruct (cats !! key); simpl; [|done].
    by rewrite Nat.add_0_r.
  - rewrite IH. unfold ratings_under. rewrite filter_cons.
    destruct (decide (category_key r = key)) as [->|Hne].
    + rewrite lookup_alter_eq. destruct (cats !! _); simpl; [|done].
      f_equal. lia.
    + by rewrite lookup_alter_ne.
Qed.

Section Returned.
Context `{Builtins}.

Lemma rated_true (m : MovieRecord) :
  rated m = true ↔
  source m ≠ "Not Found" ∧
  ∃ r, rating m = Some r ∧ r ≠ EmptyString ∧ r ≠ "N/A"%string.
Proof.
  unfold rated. rewrite !andb_true_iff, found_true, negb_true_iff,
    bool_decide_eq_false.
  destruct (rating m) as [[|c r]|]; simpl.
  - split; [by intros [[_ ?] _]|]. by intros (_ & r & [= <-] & ? & _).
  - split.
    + intros [[Hs _] Hna]. split; [done|]. eexists. split; [done|].
      split; [done|]. congruence.
    + intros (Hs & r' & [= <-] & _ & Hna). repeat split; [done|congruence].
  - split; [by intros [[_ ?] _]|]. by intros (_ & r & ? & _).
Qed.

Lemma fold_rating_analysis (processed : list MovieRecord)
    (data : list float) (cats : gmap string nat) :
  fold_left rating_analysis processed (data, cats) =
  (data ++ counted_ratings processed,
   fold_left (λ c r, alter S (category_key r) c)
             (counted_ratings processed) cats).
Proof.
  revert data cats. induction processed as [|m ms IH]; intros data cats; simpl.
  - by rewrite app_nil_r.
  - unfold rating_analysis at 2. unfold counted_ratings. simpl.
    destruct (rated m); [destruct (rating_float m) as [r|]|]; simpl;
      rewrite IH; try done.
    by rewrite <- app_assoc.
Qed.

(** When the sort keys can all be computed, every rated record is
    counted. *)
Lemma counted_ratings_all (processed : list MovieRecord)
    (keyed : list (float * MovieRecord)) :
  sort_keys (filter (λ m, rated m = true) processed) = Some keyed →
  length (counted_ratings processed)
  = length (filter (λ m, rated m = true) processed).
Proof.
  unfold sort_keys, counted_ratings. revert keyed.
  induction processed as [|m ms IH]; intros keyed; simpl; [done|].
  rewrite filter_cons. destruct (rated m) eqn:Hr.
  - rewrite decide_True by done. simpl.
    destruct (rating_float m) as [r|]; simpl; [|done].
    destruct (mapM _ (filter _ ms)) as [keyed'|] eqn:Hk; simpl; [|done].
    intros _. f_equal. by eapply IH.
  - rewrite decide_False by done. apply IH.
Qed.

(** What a returned statistics object holds. *)
Lemma get_statistics_returned (processed : list MovieRecord) (s : statistics) :
  get_statistics processed = Returned (Some s) →
  processed ≠ [] ∧
  total_movies s = length processed ∧
  found_movies s = length (filter (λ m, found m = true) processed) ∧
  success_rate s =
    float_of_nat (found_movies s) / float_of_nat (total_movies s) * 100 ∧
  rating_data s = counted_ratings processed ∧
  rating_categories s =
    fold_left (λ c r, alter S (category_key r) c)
              (counted_ratings processed) initial_categories ∧
  total_ratings s = length (filter (λ m, rated m = true) processed).
Proof.
  destruct processed as [|m ms]; [done|].
  unfold get_statistics. rewrite fold_rating_analysis, app_nil_l.
  destruct (sort_keys _) as [keyed|] eqn:Hk; [|done].
  intros [= <-].
  cbn [total_movies found_movies success_rate rating_data rating_categories
       total_ratings].
  repeat split; try done.
  exact (counted_ratings_all (m :: ms) keyed Hk).
Qed.

Lemma get_statistics_returns (processed : list MovieRecord) :
  processed ≠ [] →
  (∀ m, m ∈ processed → rated m = true → rating_float m ≠ None) →
  ∃ s, get_statistics processed = Returned (Some s).
Proof.
  intros Hne Hparse. destruct processed as [|m ms]; [done|].
  unfold get_statistics. rewrite fold_rating_analysis, app_nil_l.
  destruct (sort_keys _) as [keyed|] eqn:Hk; [eauto|].
  exfalso. unfold sort_keys in Hk.
  apply eq_None_not_Some in Hk. apply Hk, mapM_is_Some, Forall_forall.
  intros m' [Hr Hin]%list_elem_of_filter. simpl.
  specialize (Hparse m' Hin Hr).
  destruct (rating_float m'); [by eexists|done].
Qed.
(** The sort key of line 116 is computed outside the [try] of the loop. *)
Lemma get_statistics_raises (processed : list MovieRecord) (m : MovieRecord)
    (r : string) :
  m ∈ processed → source m ≠ "Not Found" → rating m = Some r →
  r ≠ EmptyString → r ≠ "N/A"%string → py_float r = None →
  get_statistics processed = Raised.
Proof.
  intros Hin Hsrc Hr Hne Hna Hf. destruct processed as [|m0 ms].
  { by apply elem_of_nil in Hin. }
  unfold get_statistics. rewrite fold_rating_analysis, app_nil_l.
  assert (sort_keys (filter (λ m, rated m = true) (m0 :: ms)) = None) as ->;
    [|done].
  apply mapM_None_2, Exists_exists. exists m. split.
  - apply list_elem_of_filter. split; [|done]. apply rated_true. eauto 6.
  - unfold rating_float. by rewrite Hr, Hf.
Qed.
End Returned.



(** C5, as the code has it. On a batch with at least one record in
    which [float] accepts the rating of every found record that has one (not
    empty, not "N/A"), the statistics are returned and the success rate is
    the found count divided by the total count, times 100; when [float]
    rejects such a rating [get_statistics] raises and there are no
    statistics; on a batch with no record it returns the empty dict, which
    has no success rate. *)
Theorem success_rate_of_batch `{Builtins} (processed : list MovieRecord) :
  (processed = [] → get_statistics processed = Returned None) ∧
  (processed ≠ [] →
   (∀ m r, m ∈ processed → source m ≠ "Not Found" → rating m = Some r →
           r ≠ EmptyString → r ≠ "N/A"%string → py_float r ≠ None) →
   ∃ s,
     get_statistics processed = Returned (Some s) ∧
     total_movies s = length processed ∧
     found_movies s
     = length (filter (λ m, source m ≠ "Not Found") processed) ∧
     success_rate s =
       float_of_nat (found_movies s) / float_of_nat (total_movies s) * 100) ∧
  (∀ m r, m ∈ processed → source m ≠ "Not Found" → rating m = Some r →
          r ≠ EmptyString → r ≠ "N/A"%string → py_float r = None →
          get_statistics processed = Raised).
Proof.
  split; [by intros ->|]. split; [|apply get_statistics_raises].
  intros Hne Hparse.
  destruct (get_statistics_returns processed Hne) as [s Hs].
  { intros m Hin (Hsrc & r & Hr & Hr0 & Hna)%rated_true.
    unfold rating_float. rewrite Hr. by eapply Hparse. }
  exists s. split; [exact Hs|].
  apply get_statistics_returned in Hs as (_ & Htotal & Hfound & Hrate & _).
  split; [done|]. split; [|done].
  rewrite Hfound. f_equal. apply list_filter_iff. intros m. apply found_true.
Qed.

Lemma success_rate_of_batch_witness :
  ∃ s,
    get_statistics (H := Sample.builtins)
      [found_record Sample.matrix "The Matrix";
       minimal_record "Zzznonexistentmovie123"]
    = Returned (Some s) ∧
    total_movies s = 2%nat ∧
    found_movies s = 1%nat ∧
    success_rate s = 50.
Proof.
  destruct (success_rate_of_batch (H := Sample.builtins)
              [found_record Sample.matrix "The Matrix";
               minimal_record "Zzznonexistentmovie123"])
    as (_ & Hrate & _).
  destruct Hrate as (s & Hs & Htotal & Hfound & Hsuccess); [discriminate| |].
  { intros m r [->|[->|[]%elem_of_nil]%elem_of_cons]%elem_of_cons.
    - intros _ [= <-] _ _. vm_compute. discriminate.
    - intros Hsrc. by destruct Hsrc. }
  exists s. split; [exact Hs|].
  assert (total_movies s = 2%nat) as Ht by exact Htotal.
  assert (found_movies s = 1%nat) as Hf by (rewrite Hfound; vm_compute; reflexivity).
  split; [exact Ht|]. split; [exact Hf|].
  rewrite Hsuccess, Ht, Hf. vm_compute. reflexivity.
Defined.

(** C5, as the claim words it (a success rate of 0 for a batch with no
    record), fails: on the empty batch no statistics object is returned. *)
Lemma empty_batch_has_no_success_rate :
  ¬ ∃ s,
      get_statistics (H := Sample.builtins) [] = Returned (Some s) ∧
      success_rate s = 0.
Proof. intros (s & Hs & _). discriminate Hs. Qed.

End StatisticsProps.

(** ** The other store operations *)
Module StoreProps.
Import PyStr OMDb Database Store DatabaseProps.
Local Open Scope list_scope.

Lemma filter_length_split {A} (P : A → Prop) `{∀ x, Decision (P x)} (l : list A) :
  length (filter P l) + length (filter (λ x, ¬ P x) l) = length l.
Proof.
  induction l as [|x l IH]; [done|].
  rewrite !filter_cons. destruct (decide (P x)) as [Hx|Hx].
  - rewrite decide_False by tauto. simpl. lia.
  - rewrite decide_True by done. simpl. lia.
Qed.

Lemma Forall_filter_keep {A} (P Q : A → Prop) `{∀ x, Decision (Q x)}
    (l : list A) :
  Forall P l → Forall P (filter Q l).
Proof.
  rewrite !Forall_forall. intros HP x [_ Hx]%list_elem_of_filter. by apply HP.
Qed.

Lemma newest_first_perm {A} (key : A → Z) (l : list A) :
  newest_first key l ≡ₚ l.
Proof. apply merge_sort_Permutation. Qed.

Lemma elem_of_newest_first {A} (key : A → Z) (l : list A) (x : A) :
  x ∈ newest_first key l ↔ x ∈ l.
Proof. by rewrite newest_first_perm. Qed.

Lemma elem_of_items_of (d : db) (watchlist_id : Z) (it : watchlist_item) :
  it ∈ items_of d watchlist_id ↔
  it ∈ watchlist_items d ∧ wi_watchlist_id it = watchlist_id.
Proof. unfold items_of. rewrite list_elem_of_filter. tauto. Qed.

Lemma elem_of_get_watchlists (d : db) (w : watchlist_row) (n : nat) :
  (w, n) ∈ get_watchlists d ↔
  w ∈ watchlists d ∧ n = length (items_of d (w_id w)).
Proof.
  unfold get_watchlists. rewrite list_elem_of_fmap. split.
  - intros (w' & [= -> ->] & Hw%elem_of_newest_first). done.
  - intros [Hw ->]. exists w. by rewrite elem_of_newest_first.
Qed.

Lemma elem_of_get_watchlist_movies (d : db) (watchlist_id : Z) (row : movie_row) :
  row ∈ get_watchlist_movies d watchlist_id ↔
  row ∈ movies d ∧
  ∃ it, it ∈ watchlist_items d ∧ pair_of it = (watchlist_id, m_id row).
Proof.
  unfold get_watchlist_movies. rewrite list_elem_of_bind. split.
  - intros (it & [Heq Hrow]%list_elem_of_filter
              & [Hit Hw]%elem_of_newest_first%elem_of_items_of).
    split; [done|]. exists it. split; [done|]. unfold pair_of. by rewrite Hw, Heq.
  - intros (Hrow & it & Hit & [= Hw Hm]). exists it. split.
    + apply list_elem_of_filter. by split.
    + apply elem_of_newest_first, elem_of_items_of. by split.
Qed.

(** *** Invariants *)

Lemma create_watchlist_duplicate (now : Z) (d : db) (name description : string) :
  Exists (same_name name) (watchlists d) →
  create_watchlist now d name description = (d, false).
Proof. intros Hex. unfold create_watchlist. by rewrite bool_decide_eq_true_2. Qed.

Lemma create_watchlist_present (now : Z) (d : db) (name description : string) :
  Exists (same_name name) (watchlists (create_watchlist now d name description).1).
Proof.
  unfold create_watchlist. case_bool_decide as Hex; simpl; [done|].
  apply Exists_app. right. by left.
Qed.

Lemma create_watchlist_watchlists_ok (now : Z) (d : db) (name description : string) :
  watchlists_ok d → watchlists_ok (create_watchlist now d name description).1.
Proof.
  intros [Hb Hi Hu]. unfold create_watchlist.
  case_bool_decide as Hex; simpl; [by split|].
  set (id := next_rowid (watchlists_seq d) (w_id <$> watchlists d)).
  assert (watchlists_seq d < id)%Z as Hlt by apply next_rowid_above_seq.
  assert (0 < id)%Z as Hpos by apply next_rowid_pos.
  rewrite Forall_forall in Hb.
  split; simpl.
  - apply Forall_app. split.
    + apply Forall_forall. intros w Hw. specialize (Hb w Hw). simpl in Hb. lia.
    + constructor; [|done]. simpl. lia.
  - rewrite fmap_app. apply NoDup_app. split; [done|]. split.
    + intros i (w & -> & Hw)%list_elem_of_fmap Heq%list_elem_of_singleton.
      specialize (Hb w Hw). simpl in Hb, Heq. lia.
    + simpl. apply NoDup_singleton.
  - rewrite fmap_app. apply NoDup_app. split; [done|]. split.
    + intros k (w & -> & Hw)%list_elem_of_fmap Heq%list_elem_of_singleton.
      apply Hex. apply Exists_exists. exists w. by split.
    + simpl. apply NoDup_singleton.
Qed.

Lemma create_watchlist_db_ok (now : Z) (d : db) (name description : string) :
  db_ok d → db_ok (create_watchlist now d name description).1.
Proof.
  intros [? ? ? ? ? ?]. unfold create_watchlist.
  case_bool_decide; simpl; by split.
Qed.

Lemma delete_watchlist_watchlists_ok (d : db) (watchlist_id : Z) :
  watchlists_ok d → watchlists_ok (delete_watchlist d watchlist_id).1.
Proof.
  intros [Hb Hi Hu]. split; simpl.
  - by apply Forall_filter_keep.
  - by apply NoDup_fmap_filter.
  - by apply NoDup_fmap_filter.
Qed.

Lemma delete_watchlist_db_ok (d : db) (watchlist_id : Z) :
  db_ok d → db_ok (delete_watchlist d watchlist_id).1.
Proof.
  intros [? ? ? Hb Hi Hu]. split; simpl; try done.
  - by apply Forall_filter_keep.
  - by apply NoDup_fmap_filter.
  - by apply NoDup_fmap_filter.
Qed.

Lemma add_movie_watchlists_ok `{Builtins} (now : Z) (d : db) (m : MovieRecord) :
  watchlists_ok d → watchlists_ok (add_movie now d m).1.
Proof.
  intros [? ? ?]. unfold add_movie. destruct (rating_param m); by split.
Qed.

Lemma add_to_watchlist_watchlists_ok (now : Z) (d : db) (w m : Z) :
  watchlists_ok d → watchlists_ok (add_to_watchlist now d w m).1.
Proof.
  intros [? ? ?]. unfold add_to_watchlist. case_bool_decide; by split.
Qed.

Lemma empty_watchlists_ok : watchlists_ok empty_db.
Proof. split; simpl; constructor. Qed.

(** X1. Whatever calls are made on a new database file, in whatever order,
    the store satisfies its schema afterwards: ids are positive, distinct
    and not above the recorded sequences, and (title, year), watchlist names
    and (watchlist, movie) pairs are unique. *)
Theorem reachable_store_satisfies_schema `{Builtins} (ws : list (Z * write)) :
  db_ok (run_writes (init_database None) ws) ∧
  watchlists_ok (run_writes (init_database None) ws).
Proof.
  unfold run_writes, init_database. simpl.
  assert (db_ok empty_db ∧ watchlists_ok empty_db) as Hinit
    by (split; [apply empty_db_ok | apply empty_watchlists_ok]).
  revert Hinit. generalize empty_db as d.
  induction ws as [|[now w] ws IH]; intros d [Hd Hw]; simpl; [done|].
  apply IH. unfold apply_write. simpl. destruct w; split.
  - by apply add_movie_ok.
  - by apply add_movie_watchlists_ok.
  - by apply create_watchlist_db_ok.
  - by apply create_watchlist_watchlists_ok.
  - by apply add_to_watchlist_ok.
  - by apply add_to_watchlist_watchlists_ok.
  - by apply delete_watchlist_db_ok.
  - by apply delete_watchlist_watchlists_ok.
Qed.

(** X2. Creating a watchlist under a name that is taken returns [False]
    instead of raising and changes nothing, so the first description stays;
    the name has exactly one watchlist. *)
Theorem duplicate_watchlist_name_is_rejected (now1 now2 : Z) (d : db)
    (name description1 description2 : string) :
  watchlists_ok d →
  let d1 := (create_watchlist now1 d name description1).1 in
  let second := create_watchlist now2 d1 name description2 in
  second.2 = false ∧
  second.1 = d1 ∧
  length (filter (same_name name) (watchlists second.1)) = 1.
Proof.
  intros Hok d1 second.
  assert (second = (d1, false)) as ->.
  { apply create_watchlist_duplicate, create_watchlist_present. }
  simpl. split; [done|]. split; [done|].
  apply (filter_unique w_name name).
  - apply (watchlists_unique _ (create_watchlist_watchlists_ok now1 d name
                                   description1 Hok)).
  - apply create_watchlist_present.
Qed.

Lemma duplicate_watchlist_name_is_rejected_witness :
  (create_watchlist 20 (create_watchlist 10 empty_db "Favourites" "first").1
     "Favourites" "second").2 = false ∧
  (create_watchlist 20 (create_watchlist 10 empty_db "Favourites" "first").1
     "Favourites" "second").1
  = (create_watchlist 10 empty_db "Favourites" "first").1 ∧
  length
    (filter (same_name "Favourites")
       (watchlists
          (create_watchlist 20
             (create_watchlist 10 empty_db "Favourites" "first").1
             "Favourites" "second").1)) = 1.
Proof.
  apply (duplicate_watchlist_name_is_rejected 10 20 empty_db "Favourites"
           "first" "second").
  split; simpl; constructor.
Defined.

(** X3. Deleting a watchlist always returns [True]; afterwards the
    watchlist has no listing of movies and no entry in [get_watchlists],
    every other watchlist keeps its entry with the same count and the same
    movies, and the movies table is as before. *)
Theorem delete_watchlist_removes_exactly_one (d : db) (watchlist_id : Z) :
  let res := delete_watchlist d watchlist_id in
  res.2 = true ∧
  movies res.1 = movies d ∧
  get_watchlist_movies res.1 watchlist_id = [] ∧
  (∀ w n, (w, n) ∈ get_watchlists res.1 ↔
          (w, n) ∈ get_watchlists d ∧ w_id w ≠ watchlist_id) ∧
  (∀ other, other ≠ watchlist_id →
     get_watchlist_movies res.1 other = get_watchlist_movies d other).
Proof.
  intros res.
  assert (∀ other, other ≠ watchlist_id →
            items_of res.1 other = items_of d other) as Hother.
  { intros other Hne. unfold items_of, res. simpl. rewrite list_filter_filter.
    apply list_filter_iff. intros it. split; [by intros [? _]|].
    intros Hit. split; [done|]. congruence. }
  split; [done|]. split; [done|]. split; [|split].
  - unfold get_watchlist_movies, items_of, res. simpl.
    rewrite list_filter_filter.
    rewrite filter_none; [done|].
    by intros (it & _ & [Heq Hne])%Exists_exists.
  - intros w n. rewrite !elem_of_get_watchlists. unfold res at 1. simpl.
    rewrite list_elem_of_filter. split.
    + intros [[Hne Hw] ->]. by rewrite Hother.
    + intros [[Hw ->] Hne]. by rewrite Hother.
  - intros other Hne. unfold get_watchlist_movies. by rewrite Hother.
Qed.

(** X4. A successful [add_movie] on a store that satisfies its schema
    returns an id above every id in the table (ids are never reused, not
    even by a replacement), and the table keeps its size when the
    (title, year) pair was present and grows by one row when it was not. *)
Theorem upsert_id_and_size `{Builtins} (now : Z) (d : db) (m : MovieRecord)
    (r : float) :
  db_ok d →
  rating_param m = Some r →
  ∃ movie_id,
    (add_movie now d m).2 = Some movie_id ∧
    (∀ row, row ∈ movies d → (m_id row < movie_id)%Z) ∧
    length (movies (add_movie now d m).1) =
      match rows_for d (title m) (year m) with
      | [] => S (length (movies d))
      | _ :: _ => length (movies d)
      end.
Proof.
  intros Hok Hr. unfold add_movie. rewrite Hr. simpl.
  eexists. split; [done|]. split.
  - intros row Hrow.
    pose proof (movies_ids_bound _ Hok) as Hb. rewrite Forall_forall in Hb.
    specialize (Hb row Hrow). simpl in Hb.
    pose proof (next_rowid_above_seq (movies_seq d) (m_id <$> movies d)). lia.
  - rewrite length_app. simpl.
    pose proof (filter_length_split (same_key (title m) (year m)) (movies d))
      as Hsplit.
    unfold rows_for.
    destruct (filter (same_key (title m) (year m)) (movies d)) as [|row rows]
      eqn:Hrows.
    + simpl in Hsplit. lia.
    + assert (length (row :: rows) = 1) as Hone; [|simpl in *; lia].
      rewrite <- Hrows.
      rewrite (list_filter_iff _ (λ x, key_of x = (title m, year m))).
      * apply filter_unique; [apply (movies_unique _ Hok)|].
        apply Exists_exists. exists row.
        assert (row ∈ filter (same_key (title m) (year m)) (movies d)) as Hin
          by (rewrite Hrows; apply list_elem_of_here).
        apply list_elem_of_filter in Hin as [[Ht Hy] Hin]. split; [done|].
        unfold key_of. by rewrite Ht, Hy.
      * intros x. unfold same_key, key_of.
        split; [by intros [-> ->] | by intros [= -> ->]].
Qed.

Lemma upsert_id_and_size_witness :
  ∃ movie_id,
    (add_movie (H := Sample.builtins) 20
       (add_movie (H := Sample.builtins) 10 empty_db
          (found_record Sample.matrix "The Matrix")).1
       (found_record Sample.matrix "the matrix")).2 = Some movie_id ∧
    (∀ row,
       row ∈ movies (add_movie (H := Sample.builtins) 10 empty_db
                       (found_record Sample.matrix "The Matrix")).1 →
       (m_id row < movie_id)%Z) ∧
    length
      (movies
         (add_movie (H := Sample.builtins) 20
            (add_movie (H := Sample.builtins) 10 empty_db
               (found_record Sample.matrix "The Matrix")).1
            (found_record Sample.matrix "the matrix")).1) = 1.
Proof.
  apply (upsert_id_and_size (H := Sample.builtins) 20
           (add_movie (H := Sample.builtins) 10 empty_db
              (found_record Sample.matrix "The Matrix")).1
           (found_record Sample.matrix "the matrix") 8.7%float).
  - apply (add_movie_ok (H := Sample.builtins)). split; simpl; constructor.
  - vm_compute. reflexivity.
Defined.

(** X5. When every membership row refers to a stored movie, writing a
    movie again takes it out of every watchlist's listing: the replacement
    row has a new id that no membership row refers to.  The counts that
    [get_watchlists] reports do not change. *)
Theorem rewritten_movie_leaves_watchlists `{Builtins} (now : Z) (d : db)
    (m : MovieRecord) (r : float) :
  Forall (λ it, Exists (λ row, m_id row = wi_movie_id it) (movies d))
         (watchlist_items d) →
  rating_param m = Some r →
  (∀ watchlist_id row,
     row ∈ get_watchlist_movies (add_movie now d m).1 watchlist_id →
     ¬ same_key (title m) (year m) row) ∧
  get_watchlists (add_movie now d m).1 = get_watchlists d.
Proof.
  intros Href Hr. split.
  - intros watchlist_id row
      (Hrow & it & Hit & [= _ Hid])%elem_of_get_watchlist_movies Hkey.
    destruct (add_movie_rows now d m r Hr) as (id & _ & -> & Hrows).
    assert (row ∈ rows_for (add_movie now d m).1 (title m) (year m)) as Hin
      by (apply list_elem_of_filter; by split).
    rewrite Hrows in Hin. apply list_elem_of_singleton in Hin as ->.
    simpl in Hid.
    assert (it ∈ watchlist_items d) as Hit'.
    { revert Hit. unfold add_movie. by rewrite Hr. }
    rewrite Forall_forall in Href.
    apply Href, Exists_exists in Hit' as (old & Hold & Hsame).
    apply (next_rowid_fresh (movies_seq d) (m_id <$> movies d)).
    rewrite <- Hid, <- Hsame. by apply list_elem_of_fmap_2.
  - unfold add_movie. by rewrite Hr.
Qed.

Lemma rewritten_movie_leaves_watchlists_witness :
  let d :=
    (add_to_watchlist 12
       (create_watchlist 11
          (add_movie (H := Sample.builtins) 10 empty_db
             (found_record Sample.matrix "The Matrix")).1
          "Favourites" "").1 1 1).1 in
  (∀ watchlist_id row,
     row ∈ get_watchlist_movies
             (add_movie (H := Sample.builtins) 20 d
                (found_record Sample.matrix "The Matrix")).1 watchlist_id →
     ¬ same_key "The Matrix" "1999" row) ∧
  get_watchlists
    (add_movie (H := Sample.builtins) 20 d
       (found_record Sample.matrix "The Matrix")).1
  = get_watchlists d.
Proof.
  apply (rewritten_movie_leaves_watchlists (H := Sample.builtins) 20 _
           (found_record Sample.matrix "The Matrix") 8.7%float).
  - apply (bool_decide_unpack _). vm_compute. exact I.
  - vm_compute. reflexivity.
Defined.

(** X6. After [add_to_watchlist], successful or not, a watchlist lists
    the movies it listed before and, for the watchlist named in the call,
    the stored movie with the id passed; nothing else. *)
Theorem add_to_watchlist_listing (now : Z) (d : db) (watchlist_id movie_id : Z)
    (other : Z) (row : movie_row) :
  row ∈ get_watchlist_movies (add_to_watchlist now d watchlist_id movie_id).1 other
  ↔
  row ∈ get_watchlist_movies d other ∨
  (other = watchlist_id ∧ m_id row = movie_id ∧ row ∈ movies d).
Proof.
  rewrite !elem_of_get_watchlist_movies. unfold add_to_watchlist.
  case_bool_decide as Hex; simpl.
  - split; [by left|]. intros [?|(Ho & Hm' & Hrow)]; [done|]. subst other movie_id.
    split; [done|]. apply Exists_exists in Hex as (it & Hit & Hw & Hm).
    exists it. split; [done|]. unfold pair_of. by rewrite Hw, Hm.
  - split.
    + intros (Hrow & it & [Hit | ->%list_elem_of_singleton]%elem_of_app & Hp).
      * left. eauto.
      * right. by injection Hp as <- <-.
    + intros [(Hrow & it & Hit & Hp)|(Ho & Hm' & Hrow)]; [|subst other movie_id].
      * split; [done|]. exists it. split; [|done]. apply elem_of_app. by left.
      * split; [done|]. eexists. split; [apply elem_of_app; right;
          apply list_elem_of_here|]. done.
Qed.

(** X7. Creating a watchlist under a free name returns [True]; when no
    membership row refers to an id that has not been handed out yet, the new
    watchlist is listed with the name and description given and a count of
    zero, and the watchlists listed before keep their entries. *)
Theorem created_watchlist_is_listed_empty (now : Z) (d : db)
    (name description : string) :
  ¬ Exists (same_name name) (watchlists d) →
  Forall (λ it, (wi_watchlist_id it ≤ watchlists_seq d)%Z) (watchlist_items d) →
  let res := create_watchlist now d name description in
  res.2 = true ∧
  (∃ w, w_name w = name ∧ w_description w = description ∧
        (w, 0) ∈ get_watchlists res.1) ∧
  (∀ w n, (w, n) ∈ get_watchlists d → (w, n) ∈ get_watchlists res.1).
Proof.
  intros Hfree Hbound res. unfold res, create_watchlist.
  rewrite bool_decide_eq_false_2 by done. simpl.
  split; [done|]. split.
  - exists {| w_id := next_rowid (watchlists_seq d) (w_id <$> watchlists d);
              w_name := name;
              w_description := description;
              w_created_date := now |}.
    split; [done|]. split; [done|]. apply elem_of_get_watchlists. split.
    + simpl. apply elem_of_app. right. apply list_elem_of_here.
    + simpl. unfold items_of. simpl. rewrite filter_none; [done|].
      intros (it & Hit & Heq)%Exists_exists.
      rewrite Forall_forall in Hbound. specialize (Hbound it Hit). simpl in Hbound.
      pose proof (next_rowid_above_seq (watchlists_seq d) (w_id <$> watchlists d)).
      lia.
  - intros w n [Hw ->]%elem_of_get_watchlists. apply elem_of_get_watchlists.
    split; [simpl; apply elem_of_app; by left | done].
Qed.

Lemma created_watchlist_is_listed_empty_witness :
  (create_watchlist 10 empty_db "Favourites" "to watch").2 = true ∧
  (∃ w, w_name w = "Favourites" ∧ w_description w = "to watch" ∧
        (w, 0) ∈ get_watchlists
                   (create_watchlist 10 empty_db "Favourites" "to watch").1) ∧
  (∀ w n, (w, n) ∈ get_watchlists empty_db →
          (w, n) ∈ get_watchlists
                     (create_watchlist 10 empty_db "Favourites" "to watch").1).
Proof.
  apply (created_watchlist_is_listed_empty 10 empty_db "Favourites" "to watch").
  - simpl. intros Hex. inversion Hex.
  - simpl. constructor.
Defined.

End StoreProps.

(** ** The buckets, one by one *)
Module BucketProps.
Import PyStr OMDb Database Classifier Views Shares ClassifierProps.
Local Open Scope list_scope.

Lemma target_recognized (genre : string) :
  target genre ∈ default_genres.
Proof.
  unfold target. case_bool_decide; [done|apply unknown_recognized].
Qed.

Lemma append_to_lookup (g0 g : string) (m : MovieRecord) (cm : buckets) :
  append_to g0 m cm !! g =
  (λ l, l ++ if decide (g = g0) then [m] else []) <$> cm !! g.
Proof.
  destruct (decide (g = g0)) as [->|Hne].
  - unfold append_to. by rewrite lookup_alter_eq.
  - rewrite append_to_lookup_ne by done. destruct (cm !! g); simpl; [|done].
    by rewrite app_nil_r.
Qed.

Lemma file_genres_lookup (m : MovieRecord) (gs : list string) (cm : buckets)
    (g : string) :
  keys_ok cm →
  file_genres m gs cm !! g =
  (λ l, l ++ replicate (length (filter (λ x, x = g) (target <$> gs))) m)
    <$> cm !! g.
Proof.
  revert cm. induction gs as [|g0 gs IH]; intros cm Hk; simpl.
  - destruct (cm !! g); simpl; [|done]. by rewrite app_nil_r.
  - assert ((if bool_decide (is_Some (cm !! g0))
             then append_to g0 m cm else append_to "Unknown" m cm)
            = append_to (target g0) m cm) as ->.
    { unfold target. destruct (decide (g0 ∈ default_genres)) as [Hin|Hin].
      - by rewrite !bool_decide_eq_true_2 by (done || by apply Hk).
      - by rewrite !bool_decide_eq_false_2 by (done || by intros ?%Hk). }
    rewrite IH by (by apply append_to_keys). rewrite append_to_lookup.
    rewrite filter_cons.
    destruct (cm !! g) as [l|]; simpl; [|done]. f_equal.
    destruct (decide (target g0 = g)) as [<-|Hne].
    + rewrite decide_True by done. simpl. by rewrite <- app_assoc.
    + rewrite decide_False by done. by rewrite app_nil_r.
Qed.

Lemma file_record_lookup (cm : buckets) (m : MovieRecord) (g : string) :
  keys_ok cm →
  file_record cm m !! g = (λ l, l ++ share g m) <$> cm !! g.
Proof.
  intros Hk. unfold file_record, share, filed_under.
  destruct (_ || _).
  - rewrite append_to_lookup. destruct (cm !! g); simpl; [|done]. f_equal. f_equal.
    rewrite filter_cons. destruct (decide (g = "Unknown")) as [->|Hne].
    + by rewrite decide_True.
    + by rewrite decide_False.
  - by apply file_genres_lookup.
Qed.

Lemma fold_file_record_lookup (recs : list MovieRecord) (cm : buckets)
    (g : string) :
  keys_ok cm →
  fold_left file_record recs cm !! g =
  (λ l, l ++ (recs ≫= share g)) <$> cm !! g.
Proof.
  revert cm. induction recs as [|m recs IH]; intros cm Hk; simpl.
  - destruct (cm !! g); simpl; [|done]. by rewrite app_nil_r.
  - rewrite IH by (by apply file_record_keys). rewrite file_record_lookup by done.
    destruct (cm !! g); simpl; [|done]. by rewrite <- app_assoc.
Qed.

Lemma empty_buckets_lookup (g : string) :
  g ∈ default_genres → empty_buckets !! g = Some [].
Proof.
  intros Hg. destruct (proj2 (empty_buckets_keys g) Hg) as [l Hl].
  rewrite Hl. unfold empty_buckets in Hl.
  apply elem_of_list_to_map_2, list_elem_of_fmap in Hl as (g' & [= _ ->] & _).
  done.
Qed.

Lemma elem_of_share (g : string) (m m' : MovieRecord) :
  m' ∈ share g m ↔ m' = m ∧ g ∈ filed_under m.
Proof.
  unfold share. rewrite elem_of_replicate. split.
  - intros [-> Hlen]. split; [done|].
    destruct (filter _ _) as [|x l] eqn:Hf; [done|].
    assert (x ∈ filter (λ g0, g0 = g) (filed_under m)) as Hx
      by (rewrite Hf; apply list_elem_of_here).
    by apply list_elem_of_filter in Hx as [-> ?].
  - intros [-> Hin]. split; [done|].
    assert (g ∈ filter (λ g0, g0 = g) (filed_under m)) as Hg
      by (by apply list_elem_of_filter).
    intros Hz. apply length_zero_iff_nil in Hz. rewrite Hz in Hg.
    by apply elem_of_nil in Hg.
Qed.

Lemma filed_under_sound (m : MovieRecord) (g : string) :
  g ∈ filed_under m → g ∈ genres m ∨ g = "Unknown".
Proof.
  unfold filed_under. destruct (_ || _).
  - intros ->%list_elem_of_singleton. by right.
  - intros (x & -> & Hx)%list_elem_of_fmap. unfold target.
    case_bool_decide; [by left | by right].
Qed.

Lemma filed_under_nonempty (m : MovieRecord) : filed_under m ≠ [].
Proof.
  unfold filed_under.
  destruct (bool_decide (genres m = [])) eqn:Hnil; simpl; [done|].
  destruct (bool_decide (genres m = ["Unknown"])); [done|].
  apply bool_decide_eq_false in Hnil. by destruct (genres m).
Qed.

Section Buckets.
Context `{Builtins} `{World}.

(** X8. The dict returned by [classify_movies] has the recognized genres
    as its keys and no other; the bucket of a genre holds, in batch order,
    every record of the batch once for each name of its genre list that goes
    to that bucket (the name itself when recognized, ["Unknown"] otherwise;
    one ["Unknown"] for an empty list). *)
Theorem buckets_in_batch_order (titles : list string) (cb : bool) (st : state)
    (genre : string) :
  (classify_movies titles cb st).1 !! genre =
  if bool_decide (genre ∈ default_genres)
  then Some (processed_movies (classify_movies titles cb st).2 ≫= share genre)
  else None.
Proof.
  rewrite classify_movies_unfold. simpl.
  rewrite fold_file_record_lookup by apply empty_buckets_keys.
  case_bool_decide as Hg.
  - by rewrite empty_buckets_lookup.
  - destruct (empty_buckets !! genre) eqn:Hl; [|done].
    exfalso. apply Hg, empty_buckets_keys. by eexists.
Qed.

(** X9. No record of a batch is lost and none is misfiled: every record
    is in at least one bucket, and whatever a bucket holds is a record of the
    batch that has the bucket's genre in its list, the ["Unknown"] bucket
    apart. *)
Theorem no_record_lost_or_misfiled (titles : list string) (cb : bool)
    (st : state) :
  (∀ m, m ∈ processed_movies (classify_movies titles cb st).2 →
        ∃ genre, filed m genre (classify_movies titles cb st).1) ∧
  (∀ m genre, filed m genre (classify_movies titles cb st).1 →
        m ∈ processed_movies (classify_movies titles cb st).2 ∧
        (genre ∈ genres m ∨ genre = "Unknown")).
Proof.
  rewrite classify_movies_unfold. simpl.
  set (recs := batch_records (requests st) titles).
  assert (∀ g, g ∈ default_genres →
            fold_left file_record recs empty_buckets !! g
            = Some (recs ≫= share g)) as Hb.
  { intros g Hg. rewrite fold_file_record_lookup by apply empty_buckets_keys.
    by rewrite empty_buckets_lookup. }
  split.
  - intros m Hm.
    destruct (filed_under m) as [|g gs] eqn:Hf; [by apply filed_under_nonempty in Hf|].
    assert (g ∈ filed_under m) as Hg by (rewrite Hf; apply list_elem_of_here).
    assert (g ∈ default_genres) as Hdef.
    { apply filed_under_sound in Hg as Hs. revert Hg. unfold filed_under.
      destruct (_ || _).
      - intros ->%list_elem_of_singleton. apply unknown_recognized.
      - intros (x & -> & _)%list_elem_of_fmap. apply target_recognized. }
    exists g, (recs ≫= share g). split; [by apply Hb|].
    apply list_elem_of_bind. exists m. split; [|done]. by apply elem_of_share.
  - intros m g (l & Hl & Hm).
    assert (g ∈ default_genres) as Hdef.
    { apply (fold_file_record_keys recs empty_buckets empty_buckets_keys).
      by eexists. }
    rewrite Hb in Hl by done. injection Hl as <-.
    apply list_elem_of_bind in Hm as (m0 & [-> Hg]%elem_of_share & Hm0).
    split; [done|]. by apply filed_under_sound.
Qed.
End Buckets.

End BucketProps.

(** ** The other statistics *)
Module StatisticsMore.
Import PyStr OMDb Database Classifier Views Shares FloatOrder ClassifierProps
  StatisticsProps.
Local Open Scope list_scope.
Local Open Scope nat_scope.

Lemma ltb_asym (a b : float) :
  PrimFloat.ltb a b = true → PrimFloat.ltb b a = false.
Proof.
  rewrite !FloatAxioms.ltb_spec. unfold SFltb.
  rewrite (SFcompare_antisym (Prim2SF a) (Prim2SF b)).
  by destruct (SFcompare (Prim2SF a) (Prim2SF b)) as [[]|].
Qed.

Lemma filter_length_mono {A} (P Q : A → Prop) `{∀ x, Decision (P x)}
    `{∀ x, Decision (Q x)} (l : list A) :
  (∀ x, P x → Q x) → length (filter P l) ≤ length (filter Q l).
Proof.
  intros HPQ. induction l as [|x l IH]; [done|].
  rewrite !filter_cons. destruct (decide (P x)) as [HP|HP].
  - rewrite decide_True by auto. simpl. lia.
  - destruct (decide (Q x)); simpl; lia.
Qed.

(** *** Genre counts *)

Lemma count_genre_lookup (gc : gmap string nat) (g0 g : string) (k : nat) :
  gc !! g = count_entry k →
  count_genre gc g0 !! g = count_entry (k + if decide (g0 = g) then 1 else 0).
Proof.
  intros Hk. unfold count_genre. destruct (decide (g0 = g)) as [->|Hne].
  - rewrite Hk. destruct k as [|k]; simpl.
    + by rewrite lookup_insert_eq.
    + by rewrite lookup_insert_eq.
  - rewrite Nat.add_0_r. destruct (gc !! g0); by rewrite lookup_insert_ne.
Qed.

Lemma fold_count_genre_lookup (gs : list string) (gc : gmap string nat)
    (g : string) (k : nat) :
  gc !! g = count_entry k →
  fold_left count_genre gs gc !! g
  = count_entry (k + length (filter (λ x, x = g) gs)).
Proof.
  revert gc k. induction gs as [|g0 gs IH]; intros gc k Hk; simpl.
  - by rewrite Nat.add_0_r.
  - rewrite (IH _ _ (count_genre_lookup gc g0 g k Hk)). f_equal.
    rewrite filter_cons. destruct (decide (g0 = g)); simpl; lia.
Qed.

Lemma fold_genres_flat (processed : list MovieRecord) (gc : gmap string nat) :
  fold_left (λ gc movie, fold_left count_genre (genres movie) gc) processed gc
  = fold_left count_genre (processed ≫= genres) gc.
Proof.
  revert gc. induction processed as [|m ms IH]; intros gc; simpl; [done|].
  by rewrite IH, fold_left_app.
Qed.

(** *** The ranking *)

Lemma insert_desc_perm (k : float) (m : MovieRecord)
    (l : list (float * MovieRecord)) :
  insert_desc k m l ≡ₚ (k, m) :: l.
Proof.
  induction l as [|[k' m'] l IH]; simpl; [done|].
  destruct (PrimFloat.ltb k' k); [done|]. by rewrite IH, Permutation_swap.
Qed.

Lemma insert_desc_hd (k k0 : float) (m m0 : MovieRecord)
    (l : list (float * MovieRecord)) :
  PrimFloat.ltb k0 k = false →
  HdRel key_not_below (k0, m0) l →
  HdRel key_not_below (k0, m0) (insert_desc k m l).
Proof.
  intros Hk Hl. destruct l as [|[k' m'] l]; simpl.
  - by constructor.
  - destruct (PrimFloat.ltb k' k); constructor; [done|]. by inversion Hl.
Qed.

Lemma insert_desc_sorted (k : float) (m : MovieRecord)
    (l : list (float * MovieRecord)) :
  Sorted key_not_below l → Sorted key_not_below (insert_desc k m l).
Proof.
  induction l as [|[k' m'] l IH]; simpl; intros Hs.
  - by repeat constructor.
  - destruct (PrimFloat.ltb k' k) eqn:Hlt.
    + constructor; [done|]. constructor. simpl. by apply ltb_asym.
    + apply Sorted_inv in Hs as [Hs Hhd]. constructor; [by apply IH|].
      by apply insert_desc_hd.
Qed.

Lemma fold_insert_desc (l acc : list (float * MovieRecord)) :
  Sorted key_not_below acc →
  fold_left (λ acc km, insert_desc km.1 km.2 acc) l acc ≡ₚ acc ++ l ∧
  Sorted key_not_below (fold_left (λ acc km, insert_desc km.1 km.2 acc) l acc).
Proof.
  revert acc. induction l as [|[k m] l IH]; intros acc Hs; simpl.
  - by rewrite app_nil_r.
  - destruct (IH (insert_desc k m acc) (insert_desc_sorted k m acc Hs))
      as [Hp Hs'].
    split; [|done]. rewrite Hp, insert_desc_perm. simpl.
    apply Permutation_middle.
Qed.

Lemma Sorted_take {A} (R : relation A) (n : nat) (l : list A) :
  Sorted R l → Sorted R (take n l).
Proof.
  revert n. induction l as [|x l IH]; intros [|n] Hs; simpl; try by constructor.
  apply Sorted_inv in Hs as [Hs Hhd]. constructor; [by apply IH|].
  destruct l as [|y l], n; simpl; constructor. by inversion Hhd.
Qed.

Section More.
Context `{Builtins}.

Lemma sort_keys_Some (l : list MovieRecord) (keyed : list (float * MovieRecord)) :
  sort_keys l = Some keyed →
  snd <$> keyed = l ∧ Forall (λ p, rating_float p.2 = Some p.1) keyed.
Proof.
  unfold sort_keys. intros Hk%mapM_Some_1.
  induction Hk as [|m [k m'] l keyed Hm Hk IH]; [done|].
  destruct IH as [Hsnd Hall]. destruct (rating_float m) as [r|] eqn:Hr; [|done].
  injection Hm as <- <-. split; [simpl; f_equal; exact Hsnd|]. by constructor.
Qed.

Lemma ranked_sorted (keyed : list (float * MovieRecord)) :
  Forall (λ p, rating_float p.2 = Some p.1) keyed →
  Forall (λ p, PrimFloat.is_nan p.1 = false) keyed →
  Sorted key_not_below keyed →
  Sorted not_rated_below (snd <$> keyed).
Proof.
  induction keyed as [|[k m] keyed IH]; simpl; intros Hall Hnum Hs;
    [constructor|].
  apply Forall_cons in Hall as [Hm Hall]. apply Forall_cons in Hnum as [Hk Hnum].
  apply Sorted_inv in Hs as [Hs Hhd].
  constructor; [by apply IH|].
  destruct keyed as [|[k' m'] keyed]; simpl; constructor.
  apply Forall_cons in Hall as [Hm' _]. apply Forall_cons in Hnum as [Hk' _].
  inversion Hhd as [|? ? Hkk']; subst.
  intros ra rb Hra Hrb. simpl in *.
  assert (ra = k) as -> by congruence. assert (rb = k') as -> by congruence.
  by apply ltb_false_leb.
Qed.

(** What else a returned statistics object holds. *)
Lemma get_statistics_fields (processed : list MovieRecord) (s : statistics) :
  get_statistics processed = Returned (Some s) →
  ∃ keyed,
    sort_keys (filter (λ m, rated m = true) processed) = Some keyed ∧
    not_found_movies s = total_movies s - found_movies s ∧
    unknown_genres s = length (filter (λ m, unknown_genre m = true) processed) ∧
    genre_counts s = fold_left count_genre (processed ≫= genres) ∅ ∧
    top_rated_movies s = take 5 (sorted_desc keyed) ∧
    total_ratings s = length (rating_data s).
Proof.
  destruct processed as [|m ms]; [done|].
  unfold get_statistics. rewrite fold_rating_analysis, app_nil_l.
  destruct (sort_keys _) as [keyed|] eqn:Hk; [|done].
  intros [= <-]. exists keyed.
  repeat split; try reflexivity.
  apply (fold_genres_flat (m :: ms) ∅).
Qed.

(** X10. [get_statistics] returns the empty dict exactly on an empty
    batch, and lets an exception escape exactly when some found record has a
    rating, not empty and not "N/A", that [float] rejects: the loop skips
    such a rating, the sort of the top rated movies does not. *)
Theorem get_statistics_empty_or_raises (processed : list MovieRecord) :
  (get_statistics processed = Returned None ↔ processed = []) ∧
  (get_statistics processed = Raised ↔
   ∃ m r,
     m ∈ processed ∧ source m ≠ "Not Found" ∧ rating m = Some r ∧
     r ≠ EmptyString ∧ r ≠ "N/A"%string ∧ py_float r = None).
Proof.
  destruct processed as [|m0 ms].
  { split; [done|]. split; [done|]. by intros (m & r & []%elem_of_nil & _). }
  unfold get_statistics. rewrite fold_rating_analysis, app_nil_l.
  destruct (sort_keys _) as [keyed|] eqn:Hk.
  - split; [done|]. split; [done|].
    intros (m & r & Hin & Hsrc & Hr & Hne & Hna & Hf). exfalso.
    assert (sort_keys (filter (λ m, rated m = true) (m0 :: ms)) = None) as Hnone.
    { apply mapM_None_2, Exists_exists. exists m. split.
      - apply list_elem_of_filter. split; [|done]. apply rated_true. eauto 6.
      - unfold rating_float. by rewrite Hr, Hf. }
    congruence.
  - split; [done|]. split; [intros _|done].
    apply mapM_None_1, Exists_exists in Hk
      as (m & [Hrated Hin]%list_elem_of_filter & Hnone).
    apply rated_true in Hrated as (Hsrc & r & Hr & Hne & Hna).
    exists m, r. repeat split; try done.
    unfold rating_float in Hnone. rewrite Hr in Hnone.
    by destruct (py_float r).
Qed.

(** X11. In the statistics of a batch, a genre name has an entry in
    [genre_counts] exactly when some record has it in its genre list, and the
    entry is the number of its occurrences over all the genre lists,
    recognized or not. *)
Theorem genre_counts_are_occurrences (processed : list MovieRecord)
    (s : statistics) (genre : string) :
  get_statistics processed = Returned (Some s) →
  genre_counts s !! genre = count_entry (occurrences genre processed).
Proof.
  intros (keyed & _ & _ & _ & Hgc & _)%get_statistics_fields.
  rewrite Hgc. by rewrite (fold_count_genre_lookup _ ∅ genre 0).
Qed.

(** X12. The counts of a statistics object fit together: found and not
    found add up to the total, no more records are rated than found, no more
    have an unknown genre than there are, and the five histogram counts add
    up to the number of ratings. *)
Theorem statistics_counts_fit (processed : list MovieRecord) (s : statistics) :
  get_statistics processed = Returned (Some s) →
  found_movies s + not_found_movies s = total_movies s ∧
  total_ratings s ≤ found_movies s ∧
  unknown_genres s ≤ total_movies s ∧
  ∃ e g a p b,
    rating_categories s !! "Excellent (9-10)" = Some e ∧
    rating_categories s !! "Good (7-8.9)" = Some g ∧
    rating_categories s !! "Average (5-6.9)" = Some a ∧
    rating_categories s !! "Poor (3-4.9)" = Some p ∧
    rating_categories s !! "Bad (0-2.9)" = Some b ∧
    e + g + a + p + b = total_ratings s.
Proof.
  intros Hs.
  destruct (get_statistics_fields _ _ Hs) as (keyed & _ & Hnf & Hunk & _ & _ & Hlen).
  destruct (get_statistics_returned _ _ Hs)
    as (_ & Htotal & Hfound & _ & Hdata & Hcats & Hrated).
  assert (found_movies s ≤ total_movies s) as Hle.
  { rewrite Hfound, Htotal. apply length_filter. }
  split; [lia|]. split.
  { rewrite Hrated, Hfound. apply filter_length_mono. intros m.
    unfold rated. rewrite !andb_true_iff. tauto. }
  split; [rewrite Hunk, Htotal; apply length_filter|].
  exists (ratings_under "Excellent (9-10)" (rating_data s)),
         (ratings_under "Good (7-8.9)" (rating_data s)),
         (ratings_under "Average (5-6.9)" (rating_data s)),
         (ratings_under "Poor (3-4.9)" (rating_data s)),
         (ratings_under "Bad (0-2.9)" (rating_data s)).
  rewrite Hcats, !count_ratings_lookup, Hdata, Hlen, Hdata.
  repeat (split; [reflexivity|]).
  generalize (counted_ratings processed) as rs. clear.
  induction rs as [|r rs IH]; [done|].
  unfold ratings_under in *. rewrite !filter_cons. simpl length at 6.
  pose proof (category_key_in r) as Hin. unfold category_keys in Hin.
  rewrite !elem_of_cons, elem_of_nil in Hin.
  destruct Hin as [Hk|[Hk|[Hk|[Hk|[Hk|[]]]]]]; rewrite Hk;
    repeat (first [rewrite decide_True by done | rewrite decide_False by done]);
    simpl; lia.
Qed.

(** X13. When [float] yields no NaN on the rating of a found record, the
    top rated movies are the first five of a ranking of all the rated
    records of the batch (found, rating present, not empty, not "N/A") in
    which every record is rated at least as high as the one after it. *)
Theorem top_rated_are_first_five (processed : list MovieRecord) (s : statistics) :
  get_statistics processed = Returned (Some s) →
  (∀ m r x, m ∈ processed → source m ≠ "Not Found" → rating m = Some r →
            py_float r = Some x → PrimFloat.is_nan x = false) →
  ∃ ranked,
    top_rated_movies s = take 5 ranked ∧
    ranked ≡ₚ filter (λ m, rated m = true) processed ∧
    Sorted not_rated_below ranked.
Proof.
  intros (keyed & Hk & _ & _ & _ & Htop & _)%get_statistics_fields Hnum.
  destruct (sort_keys_Some _ _ Hk) as [Hsnd Hall].
  destruct (fold_insert_desc keyed []) as [Hperm Hsorted]; [constructor|].
  exists (sorted_desc keyed). split; [done|]. unfold sorted_desc. split.
  - by rewrite Hperm, <- Hsnd.
  - assert (Forall (λ p : float * MovieRecord, PrimFloat.is_nan p.1 = false)
              keyed) as Hkeys.
    { apply Forall_forall. intros [k m] Hin.
      pose proof (proj1 (Forall_forall _ _) Hall _ Hin) as Hm. simpl in Hm.
      assert (m ∈ filter (λ m, rated m = true) processed) as Hrated.
      { rewrite <- Hsnd. apply list_elem_of_fmap. by exists (k, m). }
      apply list_elem_of_filter in Hrated
        as [(Hsrc & r & Hr & _)%rated_true Hproc].
      unfold rating_float in Hm. rewrite Hr in Hm. simpl. by eapply Hnum. }
    apply ranked_sorted; by rewrite ?Hperm.
Qed.
End More.

Lemma genre_counts_are_occurrences_witness :
  ∃ s,
    get_statistics (H := Sample.builtins)
      [found_record Sample.matrix "The Matrix";
       minimal_record "Zzznonexistentmovie123"] = Returned (Some s) ∧
    genre_counts s !! "Action" = Some 1 ∧
    genre_counts s !! "Sci-Fi" = Some 1 ∧
    genre_counts s !! "Drama" = None.
Proof.
  assert (∃ s,
            get_statistics (H := Sample.builtins)
              [found_record Sample.matrix "The Matrix";
               minimal_record "Zzznonexistentmovie123"] = Returned (Some s))
    as [s Hs] by (vm_compute; eexists; reflexivity).
  exists s. split; [exact Hs|]. split; [|split].
  - exact (genre_counts_are_occurrences (H := Sample.builtins) _ s "Action" Hs).
  - exact (genre_counts_are_occurrences (H := Sample.builtins) _ s "Sci-Fi" Hs).
  - exact (genre_counts_are_occurrences (H := Sample.builtins) _ s "Drama" Hs).
Defined.

Lemma statistics_counts_fit_witness :
  ∃ s,
    get_statistics (H := Sample.builtins)
      [found_record Sample.matrix "The Matrix";
       minimal_record "Zzznonexistentmovie123"] = Returned (Some s) ∧
    found_movies s + not_found_movies s = total_movies s ∧
    total_ratings s ≤ found_movies s ∧
    unknown_genres s ≤ total_movies s.
Proof.
  assert (∃ s,
            get_statistics (H := Sample.builtins)
              [found_record Sample.matrix "The Matrix";
               minimal_record "Zzznonexistentmovie123"] = Returned (Some s))
    as [s Hs] by (vm_compute; eexists; reflexivity).
  exists s. split; [exact Hs|].
  destruct (statistics_counts_fit (H := Sample.builtins) _ s Hs)
    as (Hsum & Hrated & Hunknown & _).
  split; [exact Hsum|]. split; [exact Hrated | exact Hunknown].
Defined.

Lemma top_rated_are_first_five_witness :
  ∃ s ranked,
    get_statistics (H := Sample.builtins)
      [found_record Sample.blade_runner "Blade Runner";
       found_record Sample.matrix "The Matrix"] = Returned (Some s) ∧
    top_rated_movies s = take 5 ranked ∧
    Sorted (not_rated_below (H := Sample.builtins)) ranked.
Proof.
  assert (∃ s,
            get_statistics (H := Sample.builtins)
              [found_record Sample.blade_runner "Blade Runner";
               found_record Sample.matrix "The Matrix"] = Returned (Some s))
    as [s Hs] by (vm_compute; eexists; reflexivity).
  destruct (top_rated_are_first_five (H := Sample.builtins) _ s Hs)
    as (ranked & Htop & _ & Hsorted).
  { intros m r x [->|[->|[]%elem_of_nil]%elem_of_cons]%elem_of_cons _
      [= <-] [= <-]; vm_compute; reflexivity. }
  exists s, ranked. split; [exact Hs|]. split; [exact Htop | exact Hsorted].
Defined.

End StatisticsMore.

(** ** The fields of a record *)
Module RecordProps.
Import PyStr OMDb Database OMDbProps.

Lemma str_app_cons (x : ascii) (a b : string) :
  String x a ++ b = String x (a ++ b).
Proof. reflexivity. Qed.

Lemma str_app_nil_r (a : string) : a ++ EmptyString = a.
Proof. induction a as [|x a IH]; [done|]. by rewrite str_app_cons, IH. Qed.

Lemma str_app_assoc (a b c : string) : (a ++ b) ++ c = a ++ (b ++ c).
Proof. induction a as [|x a IH]; [done|]. by rewrite !str_app_cons, IH. Qed.

Lemma of_rev_cons (c : ascii) (cur : list ascii) (s : string) :
  of_rev (c :: cur) ++ s = of_rev cur ++ String c s.
Proof.
  unfold of_rev. simpl. generalize (rev cur) as l.
  induction l as [|x l IH]; [done|].
  cbn [app string_of_list_ascii]. by rewrite !str_app_cons, IH.
Qed.

Lemma prefix_split (sep s : string) :
  String.prefix sep s = true → ∃ rest, s = sep ++ rest.
Proof.
  revert sep. induction s as [|c s IH]; intros [|c0 sep]; simpl; try done.
  - by exists EmptyString.
  - by exists (String c s).
  - destruct (ascii_dec c0 c) as [->|]; [|done].
    intros [rest ->]%IH. by exists rest.
Qed.

Lemma split_from_skip (sep p rest : string) (cur : list ascii) :
  split_from sep (String.length p) cur (p ++ rest) = split_from sep 0 cur rest.
Proof. induction p as [|c p IH]; simpl; [done|]. apply IH. Qed.

Lemma str_app_length (a b : string) :
  String.length (a ++ b) = (String.length a + String.length b)%nat.
Proof.
  induction a as [|x a IH]; [done|]. rewrite str_app_cons. simpl. by rewrite IH.
Qed.

(** Joining the pieces of a split with the separator gives the string
    back. *)
Lemma join_split_from (c0 : ascii) (sep' : string) (n : nat) (s : string)
    (cur : list ascii) :
  (String.length s ≤ n)%nat →
  join (String c0 sep') (split_from (String c0 sep') 0 cur s) = of_rev cur ++ s.
Proof.
  set (sep := String c0 sep'). unfold join.
  revert s cur. induction n as [|n IH]; intros s cur Hn.
  { destruct s; [|simpl in Hn; lia]. simpl. by rewrite str_app_nil_r. }
  destruct s as [|c s].
  { simpl. by rewrite str_app_nil_r. }
  cbn [split_from]. destruct (String.prefix sep (String c s)) eqn:Hp.
  - apply prefix_split in Hp as [rest Hrest]. unfold sep in Hrest.
    simpl in Hrest. injection Hrest as -> ->.
    change (String.length sep - 1) with (String.length sep' - 0).
    rewrite Nat.sub_0_r, split_from_skip.
    assert (String.length rest ≤ n)%nat as Hlen.
    { simpl in Hn. rewrite str_app_length in Hn. lia. }
    pose proof (split_from_nonempty sep 0 [] rest) as Hne.
    specialize (IH rest [] Hlen).
    destruct (split_from sep 0 [] rest) as [|x xs]; [done|].
    change (String.concat sep (of_rev cur :: x :: xs))
      with (of_rev cur ++ sep ++ String.concat sep (x :: xs)).
    rewrite IH. unfold sep. simpl. done.
  - rewrite IH by (simpl in Hn; lia). apply of_rev_cons.
Qed.

Lemma join_split (c0 : ascii) (sep' s : string) :
  join (String c0 sep') (split (String c0 sep') s) = s.
Proof. unfold split. by rewrite (join_split_from c0 sep' (String.length s)). Qed.

(** Replacing a one-character string by nothing deletes that character. *)
Lemma replace_char (c : ascii) (s : string) :
  list_ascii_of_string (replace (String c EmptyString) EmptyString s)
  = filter (λ x, x ≠ c) (list_ascii_of_string s).
Proof.
  unfold replace. induction s as [|x s IH]; [done|].
  cbn [replace_from list_ascii_of_string]. rewrite filter_cons.
  unfold String.prefix. fold (String.prefix EmptyString s).
  destruct (ascii_dec c x) as [->|Hne].
  - rewrite decide_False by (by intros []).
    assert (String.prefix EmptyString s = true) as -> by (by destruct s).
    simpl. apply IH.
  - rewrite decide_True by congruence. simpl. by rewrite IH.
Qed.

(** X14. The genres column that [add_movie] writes for a found record is
    the provider's [Genre] string, character for character: splitting it on
    [", "] and joining the pieces again loses nothing.  A missing or empty
    [Genre] gives the empty string. *)
Theorem stored_genres_are_the_provider_string (data : dict)
    (movie_title : string) (movie_id now : Z) (r : float) :
  data !! "Response" = Some "True" →
  m_genres (new_row movie_id now r (get_movie_data (Json data) movie_title))
  = default "" (data !! "Genre").
Proof.
  intros Hresp.
  rewrite (get_movie_data_found (Json data) data) by (by apply search_movie_Some).
  simpl. destruct (data !! "Genre") as [[|c g]|]; simpl; try done.
  apply (join_split "," " ").
Qed.

Lemma stored_genres_are_the_provider_string_witness :
  m_genres (new_row 1 10 8.7%float
              (get_movie_data (Json Sample.matrix) "The Matrix"))
  = default "" (Sample.matrix !! "Genre").
Proof.
  apply (stored_genres_are_the_provider_string Sample.matrix "The Matrix" 1 10
           8.7%float).
  vm_compute. reflexivity.
Defined.

(** X15. The votes of a found record are the provider's [imdbVotes] with
    the commas taken out and every other character kept in place (["0"] when
    the field is missing). *)
Theorem votes_have_no_commas (data : dict) (movie_title : string) :
  data !! "Response" = Some "True" →
  list_ascii_of_string (votes (get_movie_data (Json data) movie_title))
  = filter (λ c, c ≠ ","%char)
      (list_ascii_of_string (default "0" (data !! "imdbVotes"))).
Proof.
  intros Hresp.
  rewrite (get_movie_data_found (Json data) data) by (by apply search_movie_Some).
  apply replace_char.
Qed.

Lemma votes_have_no_commas_witness :
  list_ascii_of_string
    (votes (get_movie_data (Json Sample.matrix) "The Matrix"))
  = filter (λ c, c ≠ ","%char)
      (list_ascii_of_string (default "0" (Sample.matrix !! "imdbVotes"))).
Proof.
  apply (votes_have_no_commas Sample.matrix "The Matrix").
  vm_compute. reflexivity.
Defined.


End RecordProps.

(** ** utils/helpers.py *)
Module HelpersProps.
Import PyStr OMDb Classifier Helpers FloatOrder StatisticsProps.
Local Open Scope list_scope.
Local Open Scope float_scope.

Lemma leb_8_7 (r : float) : (8 <=? r) = true → (7 <=? r) = true.
Proof. by apply (leb_trans_pos 7 8 r _ _ _ _ eq_refl eq_refl). Qed.

Lemma leb_7_6 (r : float) : (7 <=? r) = true → (6 <=? r) = true.
Proof. by apply (leb_trans_pos 6 7 r _ _ _ _ eq_refl eq_refl). Qed.

Lemma leb_6_5 (r : float) : (6 <=? r) = true → (5 <=? r) = true.
Proof. by apply (leb_trans_pos 5 6 r _ _ _ _ eq_refl eq_refl). Qed.

Lemma class_of_bounds (v : float) :
  (class_of v = "rating-excellent"%string ↔ (8 <=? v) = true) ∧
  (class_of v = "rating-good"%string ↔ (7 <=? v) = true ∧ (v <? 8) = true) ∧
  (class_of v = "rating-average"%string ↔ (6 <=? v) = true ∧ (v <? 7) = true) ∧
  (class_of v = "rating-poor"%string ↔ (5 <=? v) = true ∧ (v <? 6) = true) ∧
  (class_of v = "rating-bad"%string ↔ (5 <=? v) = false).
Proof.
  unfold class_of.
  destruct (8 <=? v) eqn:H8, (7 <=? v) eqn:H7, (6 <=? v) eqn:H6,
    (5 <=? v) eqn:H5;
    try (rewrite (leb_8_7 v H8) in H7; discriminate H7);
    try (rewrite (leb_7_6 v H7) in H6; discriminate H6);
    try (rewrite (leb_6_5 v H6) in H5; discriminate H5);
    below 8; below 7; below 6;
    repeat split; intros; try done; try discriminate;
    try (exfalso; intuition congruence).
Qed.

Section Class.
Context `{Builtins}.

Lemma get_rating_class_parsed (r : string) (v : float) :
  r ≠ EmptyString → r ≠ "N/A"%string → py_float r = Some v →
  get_rating_class (Some r) = class_of v.
Proof.
  intros Hne Hna Hv. unfold get_rating_class, class_of.
  rewrite bool_decide_eq_false_2 by congruence.
  destruct r as [|c r]; [done|]. simpl. by rewrite Hv.
Qed.

Lemma class_of_nonempty (v : float) : class_of v ≠ EmptyString.
Proof. unfold class_of. by repeat (destruct (_ <=? v)). Qed.

(** X17. [get_rating_class] gives no class exactly when there is no
    rating to show: none, the empty string, "N/A", or a string [float]
    rejects.  Otherwise the class is cut at 8, 7, 6 and 5, each band holding
    its lower bound and not its upper one. *)
Theorem rating_class_bounds (rating : option string) :
  (get_rating_class rating = EmptyString ↔
   rating = None ∨ rating = Some EmptyString ∨ rating = Some "N/A"%string ∨
   ∃ r, rating = Some r ∧ py_float r = None) ∧
  (∀ r v,
     rating = Some r → r ≠ EmptyString → r ≠ "N/A"%string →
     py_float r = Some v →
     (get_rating_class rating = "rating-excellent"%string ↔ (8 <=? v) = true) ∧
     (get_rating_class rating = "rating-good"%string ↔
      (7 <=? v) = true ∧ (v <? 8) = true) ∧
     (get_rating_class rating = "rating-average"%string ↔
      (6 <=? v) = true ∧ (v <? 7) = true) ∧
     (get_rating_class rating = "rating-poor"%string ↔
      (5 <=? v) = true ∧ (v <? 6) = true) ∧
     (get_rating_class rating = "rating-bad"%string ↔ (5 <=? v) = false)).
Proof.
  split.
  - destruct rating as [r|]; [|split; [by left | done]].
    destruct (decide (r = EmptyString)) as [->|Hne].
    { split; [by right; left | done]. }
    destruct (decide (r = "N/A"%string)) as [->|Hna].
    { split; [by right; right; left | done]. }
    destruct (py_float r) as [v|] eqn:Hv.
    + rewrite (get_rating_class_parsed r v) by done. split.
      * by intros ?%class_of_nonempty.
      * intros [?|[?|[?|(r' & ? & ?)]]]; congruence.
    + split; [intros _; right; right; right; by exists r|intros _].
      unfold get_rating_class. rewrite bool_decide_eq_false_2 by congruence.
      destruct r; [done|]. simpl. by rewrite Hv.
  - intros r v -> Hne Hna Hv. rewrite (get_rating_class_parsed r v) by done.
    apply class_of_bounds.
Qed.

(** X18. The class a rating is shown with and the histogram bucket it is
    counted in disagree on three bands: from 8 up to 9 it is shown as
    excellent and counted as good, from 5 up to 6 shown as poor and counted
    as average, from 3 up to 5 shown as bad and counted as poor. *)
Theorem rating_class_and_histogram_differ (r : string) (v : float) :
  r ≠ EmptyString → r ≠ "N/A"%string → py_float r = Some v →
  ((8 <=? v) = true → (v <? 9) = true →
   get_rating_class (Some r) = "rating-excellent"%string ∧
   category_key v = "Good (7-8.9)"%string) ∧
  ((5 <=? v) = true → (v <? 6) = true →
   get_rating_class (Some r) = "rating-poor"%string ∧
   category_key v = "Average (5-6.9)"%string) ∧
  ((3 <=? v) = true → (v <? 5) = true →
   get_rating_class (Some r) = "rating-bad"%string ∧
   category_key v = "Poor (3-4.9)"%string).
Proof.
  intros Hne Hna Hv. rewrite (get_rating_class_parsed r v) by done.
  destruct (class_of_bounds v) as (Hce & _ & _ & Hcp & Hcb).
  destruct (category_key_bounds v) as (_ & Hkg & Hka & Hkp & _).
  split; [|split].
  - intros H8 H9. split; [by apply Hce|]. apply Hkg. split; [|done].
    by apply leb_8_7.
  - intros H5 H6. split; [by apply Hcp|]. apply Hka. split; [done|].
    apply (between 5 7); [done|done|].
    apply ltb_leb_false in H6.
    destruct (7 <=? v) eqn:H7; [|done]. apply leb_7_6 in H7. congruence.
  - intros H3 H5. split; [|by apply Hkp]. apply Hcb. by apply ltb_leb_false.
Qed.

(** The loop of [validate_movie_titles], with its accumulators. *)
Lemma validate_loop_spec (titles valid invalid : list string) :
  validate_loop titles valid invalid =
  (valid ++ filter (λ t, t ≠ EmptyString) (py_strip <$> titles),
   invalid ++ filter (λ t, py_strip t = EmptyString) titles).
Proof.
  revert valid invalid.
  induction titles as [|t titles IH]; intros valid invalid.
  - simpl. by rewrite !app_nil_r.
  - cbn [validate_loop]. rewrite fmap_cons, !filter_cons.
    destruct (py_strip t) as [|c s] eqn:Hs; simpl; rewrite IH;
      by rewrite <- app_assoc.
Qed.

(** X19. [validate_movie_titles] splits its input in two without losing
    or reordering anything: the valid list holds, stripped, the titles that
    are not blank, the invalid list holds, as given, those that strip to
    nothing, and the two lengths add up to the number of titles. *)
Theorem validate_movie_titles_partition (titles : list string) :
  (validate_movie_titles titles).1
  = filter (λ t, t ≠ EmptyString) (py_strip <$> titles) ∧
  (validate_movie_titles titles).2
  = filter (λ t, py_strip t = EmptyString) titles ∧
  (length (validate_movie_titles titles).1
   + length (validate_movie_titles titles).2 = length titles)%nat.
Proof.
  unfold validate_movie_titles. rewrite validate_loop_spec. simpl.
  split; [done|]. split; [done|].
  induction titles as [|t titles IH]; [done|].
  rewrite fmap_cons, !filter_cons.
  destruct (decide (py_strip t ≠ EmptyString)) as [Hne|He].
  - rewrite decide_False by done. simpl. lia.
  - rewrite decide_True by (by destruct (decide (py_strip t = EmptyString))).
    simpl. lia.
Qed.
End Class.

Lemma rating_class_bounds_witness :
  get_rating_class (H := Sample.builtins) (Some "8.5"%string)
  = "rating-excellent"%string ∧
  get_rating_class (H := Sample.builtins) (Some "6.99"%string)
  = "rating-average"%string.
Proof.
  split.
  - destruct (rating_class_bounds (H := Sample.builtins) (Some "8.5"%string))
      as [_ Hbands].
    destruct (Hbands "8.5"%string 8.5) as (Hexcellent & _);
      [reflexivity | discriminate | discriminate | vm_compute; reflexivity |].
    apply Hexcellent. vm_compute. reflexivity.
  - destruct (rating_class_bounds (H := Sample.builtins) (Some "6.99"%string))
      as [_ Hbands].
    destruct (Hbands "6.99"%string 6.99) as (_ & _ & Haverage & _);
      [reflexivity | discriminate | discriminate | vm_compute; reflexivity |].
    apply Haverage. split; vm_compute; reflexivity.
Defined.

Lemma rating_class_and_histogram_differ_witness :
  get_rating_class (H := Sample.builtins) (Some "8.5"%string)
  = "rating-excellent"%string ∧
  category_key 8.5 = "Good (7-8.9)"%string.
Proof.
  destruct (rating_class_and_histogram_differ (H := Sample.builtins)
              "8.5"%string 8.5) as (Hband & _);
    [discriminate | discriminate | vm_compute; reflexivity |].
  apply Hband; vm_compute; reflexivity.
Defined.

End HelpersProps.

(** ** From a search or a batch to the store and the statistics *)
Module PipelineProps.
Import PyStr OMDb Database Classifier Views Shares ClassifierProps
  StatisticsProps StatisticsMore.
Local Open Scope list_scope.

Section Pipeline.
Context `{Builtins} `{World}.

(** X20. From the provider's answer to the stored row.  A single search
    that finds no match returns the placeholder record and leaves the store
    as it was.  One that finds a match whose rating [float] accepts (or
    that has none, an empty one or "N/A", written as 0) leaves exactly one row
    for the record's (title, year) pair, under a row id above all earlier
    ones, whose columns are the provider's fields: [Title] (the searched
    title when missing), the year as line 48 computes it, the [Genre]
    string as it came, the rating as a number, [Director], [Actors] and
    [Runtime] (["Unknown"] when missing), [Plot], [Poster] and [imdbID]
    (empty when missing).  A match whose rating [float] rejects is returned
    but not stored.  The records of the last batch are never touched. *)
Theorem single_search_round_trip (st : state) (movie_title : string) :
  let res := search_single_movie st movie_title in
  let answer := requests_get (requests st) movie_title in
  (search_movie answer = None →
   res.1 = minimal_record movie_title ∧ database res.2 = database st) ∧
  (∀ data r,
     answer = Json data → data !! "Response" = Some "True" →
     (∃ s, data !! "imdbRating" = Some s ∧ s ≠ "" ∧ s ≠ "N/A" ∧
           py_float s = Some r) ∨
     ((data !! "imdbRating" = None ∨ data !! "imdbRating" = Some "" ∨
       data !! "imdbRating" = Some "N/A") ∧ r = 0%float) →
     ∃ movie_id,
       Forall (λ row, (m_id row < movie_id)%Z) (movies (database st)) ∧
       rows_for (database res.2)
         (default movie_title (data !! "Title"))
         (hd "" (split en_dash
                   (replace en_dash "" (default "Unknown" (data !! "Year")))))
       = [ {| m_id := movie_id;
              m_title := default movie_title (data !! "Title");
              m_year :=
                hd "" (split en_dash
                         (replace en_dash ""
                            (default "Unknown" (data !! "Year"))));
              m_genres := default "" (data !! "Genre");
              m_rating :=
                if PrimFloat.is_nan r then None
                else if PrimFloat.eqb r 0 then Some 0%float
                else Some r;
              m_director := default "Unknown" (data !! "Director");
              m_actors := default "Unknown" (data !! "Actors");
              m_runtime := default "Unknown" (data !! "Runtime");
              m_overview := default "" (data !! "Plot");
              m_poster_url := default "" (data !! "Poster");
              m_imdb_id := default "" (data !! "imdbID");
              m_date_added := current_timestamp (S (requests st)) |} ]) ∧
  (∀ data s,
     answer = Json data → data !! "Response" = Some "True" →
     data !! "imdbRating" = Some s → s ≠ "" → s ≠ "N/A" →
     py_float s = None →
     res.1 = found_record data movie_title ∧ database res.2 = database st) ∧
  processed_movies res.2 = processed_movies st.
Proof.
  unfold search_single_movie, get_movie_data, store_if_found.
  cbn [fst snd database processed_movies requests].
  set (answer := requests_get (requests st) movie_title).
  split; [|split; [|split]].
  - intros Hnone. unfold OMDb.get_movie_data. rewrite Hnone. by simpl.
  - intros data r Hanswer Hresp Hr.
    rewrite Hanswer,
      (OMDbProps.get_movie_data_found (Json data) data movie_title)
      by (by apply OMDbProps.search_movie_Some).
    set (m := found_record data movie_title).
    assert (found m = true) as -> by done.
    cbn [fst snd database].
    apply (DatabaseProps.rating_param_Some m r) in Hr.
    destruct (DatabaseProps.add_movie_rows
                (current_timestamp (S (requests st))) (database st) m r Hr)
      as (movie_id & _ & -> & Hrows).
    eexists. split.
    + pose proof (DatabaseProps.next_rowid_above_ids
                    (movies_seq (database st)) (m_id <$> movies (database st)))
        as Hids.
      rewrite Forall_fmap in Hids. exact Hids.
    + change (default movie_title (data !! "Title")) with (title m).
      change (hd "" (split en_dash
                       (replace en_dash "" (default "Unknown" (data !! "Year")))))
        with (year m).
      rewrite Hrows. unfold new_row.
      assert (join ", " (genres m) = default "" (data !! "Genre")) as ->; [|done].
      unfold m. simpl. destruct (data !! "Genre") as [[|c g]|]; simpl; try done.
      apply (RecordProps.join_split "," " ").
  - intros data s Hanswer Hresp Hr Hne Hna Hf.
    rewrite Hanswer,
      (OMDbProps.get_movie_data_found (Json data) data movie_title)
      by (by apply OMDbProps.search_movie_Some).
    split; [done|].
    set (m := found_record data movie_title).
    assert (found m = true) as -> by done.
    cbn [fst snd database].
    rewrite DatabaseProps.add_movie_failure; [done|].
    apply DatabaseProps.rating_param_None. exists s. by repeat split.
  - by destruct (found _).
Qed.

(** X21. After a batch, [get_statistics] returns the empty dict exactly
    when no title was given, whatever batch came before; otherwise its total
    is the number of titles and its found count is the number of writes the
    batch made to the store. *)
Theorem statistics_after_classify (titles : list string) (cb : bool)
    (st : state) :
  let run := classify_movies titles cb st in
  (get_statistics (processed_movies run.2) = Returned None ↔ titles = []) ∧
  (∀ s, get_statistics (processed_movies run.2) = Returned (Some s) →
        total_movies s = length titles ∧
        ∃ new, trace run.2 = trace st ++ new ∧
               found_movies s = length (added_of new)).
Proof.
  intros run. unfold run. rewrite classify_movies_unfold. simpl. split.
  - pose proof (batch_records_length (requests st) titles) as Hlen.
    destruct (batch_records (requests st) titles) as [|m ms];
      destruct titles as [|t titles]; try done.
    split; [|done]. unfold get_statistics. rewrite fold_rating_analysis.
    by destruct (sort_keys _).
  - intros s (_ & Htotal & Hfound & _)%get_statistics_returned.
    split; [by rewrite Htotal, batch_records_length|].
    eexists. split; [done|]. rewrite batch_events_added, Hfound. f_equal.
    apply list_filter_iff. intros m. apply found_true.
Qed.
End Pipeline.

Lemma single_search_round_trip_witness :
  ∃ movie_id,
    rows_for
      (database
         (search_single_movie (H := Sample.builtins) (H0 := Sample.world)
            Sample.fresh "The Matrix").2)
      "The Matrix" "1999"
    = [ {| m_id := movie_id;
           m_title := "The Matrix";
           m_year := "1999";
           m_genres := "Action, Sci-Fi";
           m_rating := Some 8.7%float;
           m_director := "Unknown";
           m_actors := "Unknown";
           m_runtime := "Unknown";
           m_overview := "";
           m_poster_url := "";
           m_imdb_id := "tt0133093";
           m_date_added := 1700000001 |} ].
Proof.
  destruct (single_search_round_trip (H := Sample.builtins)
              (H0 := Sample.world) Sample.fresh "The Matrix")
    as (_ & Hfound & _).
  destruct (Hfound Sample.matrix 8.7%float) as (movie_id & _ & Hrows).
  - vm_compute. reflexivity.
  - vm_compute. reflexivity.
  - left. exists "8.7". split; [vm_compute; reflexivity|].
    split; [discriminate|]. split; [discriminate|]. vm_compute. reflexivity.
  - exists movie_id. exact Hrows.
Defined.

End PipelineProps.
